(** * Container filesystem introspection: [src/lib/docker.ts]

    A shallow embedding of the [Docker] class of the plugin: the command
    runner ([run], [runSafe], [lsSafe], [runAsStream]), the image scanner
    ([findGlobs]) and the streaming hasher ([calcHashOfBinaryFiles]).

    Everything the class reaches outside of its own file is a field of one
    of two classes: [SubProcess] for the layer that spawns the commands, a
    table from command lines to what the layer answers, and [Libraries]
    for [minimatch], Node's [path] and [crypto], the listing parser and
    the default hash type. Promises are modelled by a small monad that
    threads the log of the commands handed to the sub-process layer and
    carries a rejection. A tree is a value: the entries that the walker
    lets a visitor assign to are owned by one directory each. *)

From Stdlib Require Import List String Ascii ZArith Bool Lia.
From Stdlib Require Import DecimalString.
Import ListNotations.

Local Open Scope string_scope.
Local Open Scope list_scope.
Local Open Scope Z_scope.

(** ** JavaScript values *)

(** The values that the fields of a caught [error] (typed [any]) may hold. *)
Inductive JsValue : Type :=
| JsUndefined
| JsNull
| JsBoolean (b : bool)
| JsNumber (n : Z)
| JsString (s : string).

(** [typeof v === "string"] *)
Definition typeof_string (v : JsValue) : bool :=
  match v with
  | JsString _ => true
  | _ => false
  end.

(** What a rejected promise carries: the sub-process layer rejects with the
    output it collected. Any field may be missing or of another type. *)
Record JsError : Type := mkError {
  error_stdout : JsValue;
  error_stderr : JsValue;
  error_message : JsValue
}.

(** [{ stdout, stderr }] *)
Record CmdOutput : Type := mkOutput {
  stdout : JsValue;
  stderr : JsValue
}.

(** JavaScript's [String.prototype.indexOf]: the index of the first
    occurrence of [pat] in [s], [-1] when there is none. *)
Fixpoint indexOf_from (i : Z) (s pat : string) : Z :=
  if String.prefix pat s then i
  else match s with
       | EmptyString => -1
       | String _ s' => indexOf_from (i + 1) s' pat
       end.

Definition indexOf (s pat : string) : Z := indexOf_from 0 s pat.

(** ** Promises: a result or a rejection, and the log of issued commands *)

Inductive Result (A : Type) : Type :=
| Resolved (a : A)
| Rejected (e : JsError).
Arguments Resolved {A} a.
Arguments Rejected {A} e.

(** One call into the sub-process layer. *)
Inductive Invocation : Type :=
| Execute (command : string) (args : list string)
| ExecuteAsStream (command : string) (args : list string).

Definition M (A : Type) : Type := list Invocation -> Result A * list Invocation.

Definition ret {A} (a : A) : M A := fun log => (Resolved a, log).

Definition throw {A} (e : JsError) : M A := fun log => (Rejected e, log).

Definition bind {A B} (m : M A) (k : A -> M B) : M B :=
  fun log =>
    match m log with
    | (Resolved a, log') => k a log'
    | (Rejected e, log') => (Rejected e, log')
    end.

(** [try { m } catch (error) { handler error }] *)
Definition try_catch {A} (m : M A) (handler : JsError -> M A) : M A :=
  fun log =>
    match m log with
    | (Resolved a, log') => (Resolved a, log')
    | (Rejected e, log') => handler e log'
    end.

(** A synchronous computation that may throw, awaited inside a promise. *)
Definition lift {A} (r : Result A) : M A := fun log => (r, log).

Declare Scope promise_scope.
Delimit Scope promise_scope with promise.
Notation "x <- m ;; k" := (bind m (fun x => k))
  (at level 61, m at next level, right associativity) : promise_scope.
Local Open Scope promise_scope.

(** [for (const x of xs) { ... await ... }] where each round yields the
    replacement of [x]. *)
Fixpoint for_of {A B} (body : A -> M B) (xs : list A) : M (list B) :=
  match xs with
  | [] => ret []
  | x :: xs' =>
      y <- body x ;;
      ys <- for_of body xs' ;;
      ret (y :: ys)
  end.

(** [for (const x of xs) { ... }] threading an accumulator. *)
Fixpoint for_of_acc {A S} (body : A -> S -> M S) (xs : list A) (s : S) : M S :=
  match xs with
  | [] => ret s
  | x :: xs' =>
      s' <- body x s ;;
      for_of_acc body xs' s'
  end.

(** ** The data model of the scanner *)

(** [lsu.DiscoveredFile] *)
Record DiscoveredFile : Type := mkFile {
  file_name : string;
  file_path : string
}.

(** [lsu.DiscoveredDirectory]: a directory owns its files and its
    sub-directories. The induction principle that reaches into the list of
    sub-directories is [DiscoveredDirectory_ind] below. *)
#[local] Unset Elimination Schemes.
Inductive DiscoveredDirectory : Type :=
| mkDirectory (name : string)
              (subDirs : list DiscoveredDirectory)
              (files : list DiscoveredFile).

#[local] Set Elimination Schemes.

Definition dir_name (d : DiscoveredDirectory) : string :=
  match d with mkDirectory n _ _ => n end.
Definition subDirs (d : DiscoveredDirectory) : list DiscoveredDirectory :=
  match d with mkDirectory _ ds _ => ds end.
Definition files (d : DiscoveredDirectory) : list DiscoveredFile :=
  match d with mkDirectory _ _ fs => fs end.

(** Induction on a tree, with the property at hand for every
    sub-directory. *)
Section TreeInduction.

Variable P : DiscoveredDirectory -> Prop.
Hypothesis step :
  forall n ds fs, Forall P ds -> P (mkDirectory n ds fs).

Fixpoint DiscoveredDirectory_ind (d : DiscoveredDirectory) : P d :=
  match d with
  | mkDirectory n ds fs =>
      step n ds fs
        ((fix all (l : list DiscoveredDirectory) : Forall P l :=
            match l with
            | [] => Forall_nil P
            | d' :: l' =>
                Forall_cons d' (DiscoveredDirectory_ind d') (all l')
            end) ds)
  end.

End TreeInduction.

Record Globs : Type := mkGlobs {
  manifestGlobs : list string;
  binaryGlobs : list string
}.

Record FindGlobsResult : Type := mkResult {
  manifestFiles : list string;
  binaryFiles : list string
}.

Record BinaryFileData : Type := mkBinaryFileData {
  bf_name : string;
  bf_path : string;
  bf_hashType : string;
  bf_hash : string
}.

(** The chunk handed to an [ExecuteAsStreamCallback]:
    [{ data?, err?, exitCode? }]. *)
Record StreamData : Type := mkStreamData {
  data : option (list Byte.byte);
  err : option string;
  exitCode : option Z
}.

(** [const SystemDirectories = ["dev", "proc", "sys"]] *)
Definition SystemDirectories : list string := ["dev"; "proc"; "sys"].

(** The state of a [Docker] object. *)
Record Docker : Type := mkDocker {
  targetImage : string;
  optionsList : list string
}.

(** Node's [crypto.Hash]: the bytes fed so far, and whether [digest] has
    already been called (after which [update] and [digest] throw). *)
Record Hash : Type := mkHash {
  hash_algorithm : string;
  hash_input : list Byte.byte;
  hash_finalized : bool
}.

(** The [options] argument of [calcHashOfBinaryFiles]. *)
Record HashOptions : Type := mkHashOptions {
  hashType : option string
}.

(** A default parameter value: used when the argument is [undefined]. *)
Definition with_default {A} (d : A) (arg : option A) : A :=
  match arg with
  | Some a => a
  | None => d
  end.

(** Truthiness of an optional string: [undefined] and [""] are falsy. *)
Definition truthy_string (s : option string) : bool :=
  match s with
  | Some EmptyString => false
  | Some _ => true
  | None => false
  end.

(** The two-character string of the [--entrypoint] argument, a pair of
    double quotes. *)
Definition empty_entrypoint : string :=
  String "034"%char (String "034"%char EmptyString).

(** Sequencing of synchronous code that may throw. *)
Definition and_then {A B} (r : Result A) (k : A -> Result B) : Result B :=
  match r with
  | Resolved a => k a
  | Rejected e => Rejected e
  end.

(** The callback of a stream applied to the chunks in their order of
    arrival; an exception of the callback ends the delivery. *)
Fixpoint feed {S} (cb : StreamData -> S -> Result S)
         (chunks : list StreamData) (s : S) : Result S :=
  match chunks with
  | [] => Resolved s
  | sd :: rest => and_then (cb sd s) (feed cb rest)
  end.

(** The files of a tree in the order of the walk. *)
Fixpoint allFiles (root : DiscoveredDirectory) : list DiscoveredFile :=
  match root with
  | mkDirectory _ ds fs => fs ++ flat_map allFiles ds
  end.

(** Modelled from the spec: [lsu.iterateFiles] of [src/lib/ls-utils.ts],
    the Tree Walker of section 4.2. A depth-first walk that calls the
    visitor once per file entry, a directory's files before its
    sub-directories and these in listing order. The visitor may assign to
    the entry it is given: it returns the entry as it leaves it, together
    with the state of whatever else it writes to. *)
Fixpoint iterateFiles {S} (root : DiscoveredDirectory)
         (iterator : DiscoveredFile -> S -> DiscoveredFile * S) (s : S)
  : DiscoveredDirectory * S :=
  match root with
  | mkDirectory n ds fs =>
      let '(fs', s1) :=
        (fix each_file (l : list DiscoveredFile) (s : S) :=
           match l with
           | [] => ([], s)
           | f :: l' =>
               let '(f', s') := iterator f s in
               let '(l'', s'') := each_file l' s' in
               (f' :: l'', s'')
           end) fs s in
      let '(ds', s2) :=
        (fix each_dir (l : list DiscoveredDirectory) (s : S) :=
           match l with
           | [] => ([], s)
           | d :: l' =>
               let '(d', s') := iterateFiles d iterator s in
               let '(l'', s'') := each_dir l' s' in
               (d' :: l'', s'')
           end) ds s1 in
      (mkDirectory n ds' fs', s2)
  end.

(** ** The [Docker] class *)

(** [src/lib/sub-process.ts], the layer that spawns the commands. *)
Class SubProcess : Type := {
  (** [subProcess.execute(command, args)]: the promise it returns for a
      command line, resolved with the output or rejected with what the
      layer throws. *)
  execute : string -> list string -> Result CmdOutput;
  (** [subProcess.executeAsStream(command, cb, args)]: the chunks the layer
      hands to the callback, in order, and the rejection of its promise if
      it ends rejected. *)
  executeAsStream : string -> list string -> list StreamData * option JsError
}.

(** What else [docker.ts] imports. *)
Class Libraries : Type := {
  (** [minimatch(path, pattern)] *)
  minimatch : string -> string -> bool;
  (** Node's [path.join], [path.basename] and [path.dirname]. *)
  fspath_join : string -> string -> string;
  path_basename : string -> string;
  path_dirname : string -> string;
  (** [lsu.parseLsOutput] of [src/lib/ls-utils.ts], applied to whatever the
      [stdout] field of a listing holds. *)
  parseLsOutput : JsValue -> Result DiscoveredDirectory;
  (** [HASH_ALGORITHM_SHA1] of [src/lib/stream-utils.ts]. *)
  HASH_ALGORITHM_SHA1 : string;
  (** Node's [crypto]: the algorithms [createHash] knows, and the hex digest
      of a byte sequence under an algorithm. *)
  hashSupported : string -> bool;
  hexDigest : string -> list Byte.byte -> string
}.

Section DockerClass.

Context {sub : SubProcess} {lib : Libraries}.

(** The object the methods are called on. *)
Variable this : Docker.

(** *** The sub-process layer *)

(** Modelled from the spec: [subProcess.execute] of
    [src/lib/sub-process.ts] (section 6): one command execution, which
    resolves with [{stdout, stderr}] or rejects. The call is logged. *)
Definition subProcess_execute (command : string) (args : list string)
  : M CmdOutput :=
  fun log => (execute command args, log ++ [Execute command args]).

(** Modelled from the spec: [subProcess.executeAsStream] of
    [src/lib/sub-process.ts] (sections 4.4 and 6): the callback receives
    the chunks one after the other, then the promise settles. [s] is the
    state of the objects the callback writes to. *)
Definition subProcess_executeAsStream {S} (command : string)
           (cb : StreamData -> S -> Result S) (args : list string) (s : S)
  : M S :=
  fun log =>
    let log' := log ++ [ExecuteAsStream command args] in
    match feed cb (fst (executeAsStream command args)) s with
    | Rejected e => (Rejected e, log')
    | Resolved s' =>
        match snd (executeAsStream command args) with
        | Some e => (Rejected e, log')
        | None => (Resolved s', log')
        end
    end.

(** *** Node's [crypto.Hash] *)

Definition crypto_error (msg : string) : JsError :=
  mkError JsUndefined JsUndefined (JsString msg).

Definition createHash (algorithm : string) : Result Hash :=
  if hashSupported algorithm
  then Resolved (mkHash algorithm [] false)
  else Rejected (crypto_error "Digest method not supported").

Definition hash_update (h : Hash) (d : list Byte.byte) : Result Hash :=
  if hash_finalized h
  then Rejected (crypto_error "Digest already called")
  else Resolved (mkHash (hash_algorithm h) (hash_input h ++ d) false).

Definition hash_digest (h : Hash) : Result (string * Hash) :=
  if hash_finalized h
  then Rejected (crypto_error "Digest already called")
  else Resolved (hexDigest (hash_algorithm h) (hash_input h),
                 mkHash (hash_algorithm h) (hash_input h) true).

(** *** The command runner *)

(** [public run(cmd, args = [])] *)
Definition run (cmd : string) (args : option (list string)) : M CmdOutput :=
  let args := with_default [] args in
  subProcess_execute "docker"
    (optionsList this
     ++ ["run"; "--rm"; "--entrypoint"; empty_entrypoint;
         "--network"; "none"; targetImage this; cmd]
     ++ args).

(** [public async runSafe(cmd, args = [], ignoreErrors = [...])] *)
Definition runSafe (cmd : string) (args : option (list string))
           (ignoreErrors : option (list string)) : M CmdOutput :=
  let args := with_default [] args in
  let ignoreErrors :=
    with_default ["No such file"; "file not found"] ignoreErrors in
  try_catch (run cmd (Some args))
    (fun error =>
       let stderr := error_stderr error in
       match stderr with
       | JsString s =>
           if existsb (fun errMsg => indexOf s errMsg >=? 0) ignoreErrors
           then ret (mkOutput (error_stdout error) stderr)
           else throw error
       | _ => throw error
       end).

(** [public runAsStream(cmd, args = [], cb)] *)
Definition runAsStream {S} (cmd : string) (args : option (list string))
           (cb : StreamData -> S -> Result S) (s : S) : M S :=
  let args := with_default [] args in
  subProcess_executeAsStream "docker" cb
    (optionsList this
     ++ ["run"; "--rm"; "--entrypoint"; empty_entrypoint;
         "--network"; "none"; targetImage this; cmd]
     ++ args) s.

(** [public async catSafe(filename)] *)
Definition catSafe (filename : string) : M CmdOutput :=
  runSafe "cat" (Some [filename]) None.

(** [public async catBinarySafe(filename, cb)] *)
Definition catBinarySafe {S} (filename : string)
           (cb : StreamData -> S -> Result S) (s : S) : M S :=
  runAsStream "cat" (Some [filename]) cb s.

(** [public async lsSafe(path, recursive?)] *)
Definition lsSafe (path : string) (recursive : option bool) : M CmdOutput :=
  let params := "-1ap"%string in
  let params :=
    if with_default false recursive then (params ++ "R")%string
    else params in
  let ignoreErrors :=
    ["No such file"; "file not found"; "Permission denied"] in
  runSafe "ls" (Some [params; path]) (Some ignoreErrors).

(** *** The image scanner *)

(** [private checkMatch(filePath, globsArr)] *)
Definition checkMatch (filePath : string) (globsArr : option (list string))
  : bool :=
  if (filePath =? "")%string then false
  else match globsArr with
       | None => false
       | Some globsArr => existsb (fun g => minimatch filePath g) globsArr
       end.

(** The visitor of the second walk of [findGlobs] (lines 224-246): it
    leaves the entry alone and pushes onto the lists of [result]. *)
Definition findGlobs_visit (globs : Globs) (exclusionGlobs : list string)
           (f : DiscoveredFile) (result : FindGlobsResult)
  : DiscoveredFile * FindGlobsResult :=
  let filePath := fspath_join (file_path f) (file_name f) in
  let exclude :=
    fold_left
      (fun (exclude : bool) g =>
         if negb exclude && minimatch filePath g then true else exclude)
      exclusionGlobs false in
  if exclude then (f, result)
  else if checkMatch filePath (Some (manifestGlobs globs)) then
    (f, mkResult (manifestFiles result ++ [filePath]) (binaryFiles result))
  else if checkMatch filePath (Some (binaryGlobs globs)) then
    (f, mkResult (manifestFiles result) (binaryFiles result ++ [filePath]))
  else (f, result).

(** One round of the loop over [root.subDirs] (lines 199-213): the
    directory as the round leaves it. *)
Definition findGlobs_subdir (excludeRootDirectories : list string)
           (subdir : DiscoveredDirectory) : M DiscoveredDirectory :=
  if existsb (String.eqb (dir_name subdir)) excludeRootDirectories
  then ret subdir
  else
    subdirOutput <- lsSafe ("/" ++ dir_name subdir)%string (Some true) ;;
    subdirRecursive <- lift (parseLsOutput (stdout subdirOutput)) ;;
    let subdirRecursive :=
      fst (iterateFiles subdirRecursive
             (fun f (_ : unit) =>
                (mkFile (file_name f)
                        ("/" ++ dir_name subdir ++ file_path f)%string, tt))
             tt) in
    ret (mkDirectory (dir_name subdir)
                     (subDirs subdirRecursive) (files subdirRecursive)).

(** The tree that [findGlobs] walks, the variable [root] at line 224. The
    starvation check of the event loop between the listing and its parse
    changes no value and is left out. *)
Definition findGlobs_root (path : string) (recursive : bool)
           (excludeRootDirectories : list string) : M DiscoveredDirectory :=
  if recursive && (path =? "/")%string then
    outputRoot <- lsSafe "/" (Some false) ;;
    root <- lift (parseLsOutput (stdout outputRoot)) ;;
    subDirs' <- for_of (findGlobs_subdir excludeRootDirectories)
                       (subDirs root) ;;
    ret (mkDirectory (dir_name root) subDirs' (files root))
  else
    output <- lsSafe path (Some recursive) ;;
    lift (parseLsOutput (stdout output)).

(** [public async findGlobs(globs, exclusionGlobs = [], path = "/",
    recursive = true, excludeRootDirectories = SystemDirectories)] *)
Definition findGlobs (globs : Globs) (exclusionGlobs : option (list string))
           (path : option string) (recursive : option bool)
           (excludeRootDirectories : option (list string))
  : M FindGlobsResult :=
  let exclusionGlobs := with_default [] exclusionGlobs in
  let path := with_default "/"%string path in
  let recursive := with_default true recursive in
  let excludeRootDirectories :=
    with_default SystemDirectories excludeRootDirectories in
  let result := mkResult [] [] in
  root <- findGlobs_root path recursive excludeRootDirectories ;;
  ret (snd (iterateFiles root (findGlobs_visit globs exclusionGlobs) result)).

(** *** The streaming hasher *)

(** The callback that [calcHashOfBinaryFiles] hands to [catBinarySafe]
    (lines 263-278); it writes to [hash] and to [resultArr]. *)
Definition calcHash_chunk (file hashType : string) (sd : StreamData)
           (st : Hash * list BinaryFileData)
  : Result (Hash * list BinaryFileData) :=
  let '(hash, resultArr) := st in
  and_then
    (match data sd with
     | Some d =>
         if negb (truthy_string (err sd)) then hash_update hash d
         else Resolved hash
     | None => Resolved hash
     end)
    (fun hash =>
       match exitCode sd with
       | Some 0 =>
           and_then (hash_digest hash)
             (fun '(hex, hash) =>
                Resolved
                  (hash,
                   resultArr
                   ++ [mkBinaryFileData (path_basename file)
                         (path_dirname file) hashType hex]))
       | _ => Resolved (hash, resultArr)
       end).

(** One round of the loop over [files] (lines 260-279). *)
Definition calcHash_file (hashType : string) (file : string)
           (resultArr : list BinaryFileData) : M (list BinaryFileData) :=
  hash <- lift (createHash hashType) ;;
  st <- catBinarySafe file (calcHash_chunk file hashType) (hash, resultArr) ;;
  ret (snd st).

(** [public async calcHashOfBinaryFiles(files, options)] *)
Definition calcHashOfBinaryFiles (files : list string)
           (options : option HashOptions) : M (list BinaryFileData) :=
  let resultArr := [] in
  let hashType :=
    match options with
    | Some o =>
        if truthy_string (hashType o)
        then with_default HASH_ALGORITHM_SHA1 (hashType o)
        else HASH_ALGORITHM_SHA1
    | None => HASH_ALGORITHM_SHA1
    end in
  for_of_acc (calcHash_file hashType) files resultArr.

End DockerClass.

(** ** The rest of the class: options, constructor and image commands *)

(** Truthiness of a value, as [if (v)] tests it. *)
Definition truthy (v : JsValue) : bool :=
  match v with
  | JsUndefined => false
  | JsNull => false
  | JsBoolean b => b
  | JsNumber n => negb (n =? 0)
  | JsString s => negb (s =? "")%string
  end.

(** The string a template literal puts in the place of a value. *)
Definition toString (v : JsValue) : string :=
  match v with
  | JsUndefined => "undefined"
  | JsNull => "null"
  | JsBoolean true => "true"
  | JsBoolean false => "false"
  | JsNumber n => NilZero.string_of_int (Z.to_int n)
  | JsString s => s
  end.

(** An object read by property name; a property that is not there reads
    [undefined]. *)
Definition JsObject : Type := string -> JsValue.




(** One [if (options.key) { opts.push(`--key=${options.key}`); }]. *)
Definition push_option (options : JsObject) (key : string)
           (opts : list string) : list string :=
  if truthy (options key)
  then opts ++ [("--" ++ key ++ "=" ++ toString (options key))%string]
  else opts.

(** [private static createOptionsList(options: any)]; [None] stands for a
    falsy [options]. *)
Definition createOptionsList (options : option JsObject) : list string :=
  let opts := [] in
  match options with
  | None => opts
  | Some options =>
      let opts := push_option options "host" opts in
      let opts := push_option options "tlscert" opts in
      let opts := push_option options "tlscacert" opts in
      let opts := push_option options "tlskey" opts in
      let opts := push_option options "tlsverify" opts in
      opts
  end.


Section DockerImageCommands.

Context {sub : SubProcess}.

Variable this : Docker.

(** [public static run(args, options?)] *)
Definition Docker_run (args : list string) (options : option JsObject)
  : M CmdOutput :=
  subProcess_execute "docker" (createOptionsList options ++ args).

(** [public async pull(targetImage)] *)
Definition pull (targetImage : string) : M CmdOutput :=
  subProcess_execute "docker" ["pull"; targetImage].

(** [public async save(targetImage, destination)] *)
Definition save (targetImage destination : string) : M CmdOutput :=
  subProcess_execute "docker" ["save"; targetImage; "-o"; destination].

(** [public async inspectImage(targetImage)] *)
Definition inspectImage (targetImage : string) : M CmdOutput :=
  subProcess_execute "docker" (optionsList this ++ ["inspect"; targetImage]).

End DockerImageCommands.

(** ** The RPM database of an image: [src/lib/inputs/rpm/static.ts] *)

(** [ExtractAction] of [src/lib/extractor/types.ts], over the type of its
    stream callbacks. *)
Record ExtractAction (Callback : Type) : Type := mkExtractAction {
  actionName : string;
  filePathMatches : string -> bool;
  callback : Callback
}.
Arguments mkExtractAction {Callback} _ _ _.
Arguments actionName {Callback} _.
Arguments filePathMatches {Callback} _.
Arguments callback {Callback} _.

(** What [getPackages] of [@snyk/rpm-parser] resolves with. *)
Record ParserResponse : Type := mkParserResponse {
  response : string;
  response_error : option JsError
}.

(** What [debug] is called with. *)
Inductive DebugEntry : Type :=
| DebugMessage (text : string)
| DebugValue (error : JsError).

(** What [static.ts] imports. *)
Class RpmImports : Type := {
  ExtractedLayers : Type;
  Buffer : Type;
  StreamCallback : Type;
  (** [streamToBuffer] of [src/lib/stream-utils.ts] *)
  streamToBuffer : StreamCallback;
  (** [getContentAsBuffer] of [src/lib/extractor]: the buffer extracted
      for an action, [undefined] when there is none. *)
  getContentAsBuffer :
    ExtractedLayers -> ExtractAction StreamCallback -> option Buffer;
  (** [getPackages] of [@snyk/rpm-parser] *)
  getPackages : Buffer -> Result ParserResponse
}.

Section RpmStatic.

Context {rpm : RpmImports}.

(** [export const getRpmDbFileContentAction: ExtractAction] *)
Definition getRpmDbFileContentAction : ExtractAction StreamCallback :=
  mkExtractAction "rpm-db"
    (fun filePath => (filePath =? "/var/lib/rpm/Packages")%string)
    streamToBuffer.

(** [export async function getRpmDbFileContent(extractedLayers)]: how the
    promise settles, and what was handed to [debug]. *)
Definition getRpmDbFileContent (extractedLayers : ExtractedLayers)
  : Result string * list DebugEntry :=
  match getContentAsBuffer extractedLayers getRpmDbFileContentAction with
  | None => (Resolved ""%string, [])
  | Some rpmDb =>
      match
        and_then (getPackages rpmDb)
          (fun parserResponse =>
             match response_error parserResponse with
             | Some error => Rejected error
             | None => Resolved (response parserResponse)
             end)
      with
      | Resolved content => (Resolved content, [])
      | Rejected error =>
          (Resolved ""%string,
           [DebugMessage "An error occurred while analysing RPM packages";
            DebugValue error])
      end
  end.

End RpmStatic.

(** ** Vocabulary of the statements *)

(** [pat] occurs in [s]. *)
Definition contains (s pat : string) : Prop :=
  exists pre post, s = (pre ++ pat ++ post)%string.

(** The bytes that one chunk adds to the digest. *)
Definition chunk_bytes (sd : StreamData) : list Byte.byte :=
  match data sd with
  | Some d => if truthy_string (err sd) then [] else d
  | None => []
  end.

(** The chunk reports exit code 0. *)
Definition exit_zero (sd : StreamData) : bool :=
  match exitCode sd with
  | Some 0 => true
  | _ => false
  end.

(** The stream reported exit code 0 in one of its chunks. *)
Definition emits (chunks : list StreamData) : bool :=
  existsb exit_zero chunks.

(** The exit code is reported, if at all, by the last chunk of the stream. *)
Fixpoint orderly (chunks : list StreamData) : bool :=
  match chunks with
  | [] => true
  | sd :: rest =>
      match exitCode sd, rest with
      | None, _ => orderly rest
      | Some _, [] => true
      | Some _, _ :: _ => false
      end
  end.

(** The state a stream ends in: the exit code of its last chunk. *)
Definition exit_status (chunks : list StreamData) : option Z :=
  exitCode (last chunks (mkStreamData None None None)).

(** The stream ended with a clean successful completion. *)
Definition clean (chunks : list StreamData) : bool :=
  match exit_status chunks with
  | Some 0 => true
  | _ => false
  end.

(** The bytes of the chunks that carry data and flag no error. *)
Definition hashed_bytes (chunks : list StreamData) : list Byte.byte :=
  flat_map chunk_bytes chunks.

(** The test of [runSafe] on the [stderr] of a caught error. *)
Definition tolerated (ignoreErrors : list string) (error : JsError) : bool :=
  match error_stderr error with
  | JsString s => existsb (fun errMsg => indexOf s errMsg >=? 0) ignoreErrors
  | _ => false
  end.

(** The entry as the first walk of [findGlobs] leaves it. *)
Definition reroot (subdir : string) (f : DiscoveredFile) : DiscoveredFile :=
  mkFile (file_name f) ("/" ++ subdir ++ file_path f)%string.

(** [m] only appends to the log, and what it appends satisfies [P]. *)
Definition issues {A} (P : Invocation -> Prop) (m : M A) : Prop :=
  forall log, exists issued, snd (m log) = log ++ issued /\ Forall P issued.

(** The outcomes of two promises are related by [R] when both resolve with
    related values or both reject with the same error. *)
Definition related {A} (R : A -> A -> Prop) (r1 r2 : Result A) : Prop :=
  match r1, r2 with
  | Resolved a1, Resolved a2 => R a1 a2
  | Rejected e1, Rejected e2 => e1 = e2
  | _, _ => False
  end.

(** Two computations whose outcomes are related from any two logs. *)
Definition agree {A} (R : A -> A -> Prop) (m1 m2 : M A) : Prop :=
  forall log1 log2, related R (fst (m1 log1)) (fst (m2 log2)).

Section Vocabulary.

Context {sub : SubProcess} {lib : Libraries}.
Variable this : Docker.

(** The path that [findGlobs] classifies for an entry. *)
Definition fullPath (f : DiscoveredFile) : string :=
  fspath_join (file_path f) (file_name f).

(** The path matches one of the exclusion globs. *)
Definition excluded (exclusionGlobs : list string) (p : string) : bool :=
  existsb (fun g => minimatch p g) exclusionGlobs.

(** The argument list that [run] and [runAsStream] build. *)
Definition docker_run_args (cmd : string) (args : list string)
  : list string :=
  optionsList this
  ++ ["run"; "--rm"; "--entrypoint"; empty_entrypoint;
      "--network"; "none"; targetImage this; cmd]
  ++ args.

(** The call that [lsSafe path recursive] issues. *)
Definition ls_invocation (recursive : bool) (path : string) : Invocation :=
  Execute "docker"
    (docker_run_args "ls" [if recursive then "-1apR" else "-1ap"; path]).

(** What a scan from the root may issue: the listing of the root, and a
    recursive listing per top-level directory that is not excluded. *)
Definition root_scan_call (excludeRootDirectories : list string)
           (inv : Invocation) : Prop :=
  inv = ls_invocation false "/"
  \/ exists d,
      existsb (String.eqb d) excludeRootDirectories = false
      /\ inv = ls_invocation true ("/" ++ d)%string.

(** The tests that put a path on [manifestFiles] and on [binaryFiles]. *)
Definition is_manifest (globs : Globs) (exclusionGlobs : list string)
           (p : string) : bool :=
  negb (excluded exclusionGlobs p)
  && checkMatch p (Some (manifestGlobs globs)).

Definition is_binary (globs : Globs) (exclusionGlobs : list string)
           (p : string) : bool :=
  negb (excluded exclusionGlobs p)
  && negb (checkMatch p (Some (manifestGlobs globs)))
  && checkMatch p (Some (binaryGlobs globs)).

(** The call that [catBinarySafe file] issues, the chunks it delivers and
    how its promise settles. *)
Definition cat_args (file : string) : list string :=
  docker_run_args "cat" [file].

Definition chunks_of (file : string) : list StreamData :=
  fst (executeAsStream "docker" (cat_args file)).

Definition rejection_of (file : string) : option JsError :=
  snd (executeAsStream "docker" (cat_args file)).

(** The record that [calcHashOfBinaryFiles] pushes for a file. *)
Definition record_of (hashType file : string) : BinaryFileData :=
  mkBinaryFileData (path_basename file) (path_dirname file) hashType
    (hexDigest hashType (hashed_bytes (chunks_of file))).

(** The hash type that [calcHashOfBinaryFiles] settles on. *)
Definition hashType_of (options : option HashOptions) : string :=
  match options with
  | Some (mkHashOptions (Some ht)) =>
      if (ht =? "")%string then HASH_ALGORITHM_SHA1 else ht
  | _ => HASH_ALGORITHM_SHA1
  end.

End Vocabulary.

(** A recursive listing of [path]: a [docker] command line that ends in
    [ls -1apR path]. *)
Definition recursive_listing_of (path : string) (inv : Invocation) : Prop :=
  exists front, inv = Execute "docker" (front ++ ["ls"; "-1apR"; path]).

(** Two runs of a listing command gave the same listing: both resolved
    with the same [stdout], or both rejected with the same error. *)
Definition same_listing (r1 r2 : Result CmdOutput) : Prop :=
  match r1, r2 with
  | Resolved o1, Resolved o2 => stdout o1 = stdout o2
  | Rejected e1, Rejected e2 => e1 = e2
  | _, _ => False
  end.

(** ** A small image to run the model on *)

Module Demo.

Definition nl : string := String "010"%char EmptyString.

Definition ends_with (s suffix : string) : bool :=
  let n := String.length s in
  let m := String.length suffix in
  (m <=? n)%nat && (substring (n - m) m s =? suffix)%string.

(** Globs of the shapes [**/name] and [prefix**]; any other pattern
    matches itself only. *)
Definition glob (p g : string) : bool :=
  if String.prefix "**/" g
  then ends_with p (substring 2 (String.length g - 2) g)
  else if ends_with g "**"
       then String.prefix (substring 0 (String.length g - 2) g) p
       else (p =? g)%string.

(** Joins two segments with one separator. *)
Definition join (dir name : string) : string :=
  if (dir =? "")%string then (if (name =? "")%string then "." else name)
  else if (name =? "")%string then dir
  else if ends_with dir "/" then (dir ++ name)%string
  else (dir ++ "/" ++ name)%string.

Fixpoint basename_from (s acc : string) : string :=
  match s with
  | EmptyString => acc
  | String c s' =>
      if (c =? "/")%char then basename_from s' EmptyString
      else basename_from s' (acc ++ String c EmptyString)%string
  end.

Definition basename (s : string) : string := basename_from s EmptyString.

Definition dirname (s : string) : string :=
  let d :=
    substring 0 (String.length s - String.length (basename s) - 1) s in
  if (d =? "")%string then "/"%string else d.

Definition root_listing : string :=
  ("./" ++ nl ++ "../" ++ nl ++ "app/" ++ nl ++ "proc/" ++ nl
   ++ "README" ++ nl)%string.

Definition app_listing : string :=
  ("/app:" ++ nl ++ "package.json" ++ nl ++ "node" ++ nl ++ "lib/" ++ nl
   ++ nl ++ "/app/lib:" ++ nl ++ "package.json" ++ nl ++ "libz.so" ++ nl)
    %string.

(** The trees of the two listings above; any other text has no entry. *)
Definition parse (out : JsValue) : Result DiscoveredDirectory :=
  match out with
  | JsString s =>
      if (s =? root_listing)%string then
        Resolved
          (mkDirectory "/"
             [mkDirectory "app" [] []; mkDirectory "proc" [] []]
             [mkFile "README" "/"])
      else if (s =? app_listing)%string then
        Resolved
          (mkDirectory "/"
             [mkDirectory "lib" []
                [mkFile "package.json" "/lib"; mkFile "libz.so" "/lib"]]
             [mkFile "package.json" ""; mkFile "node" ""])
      else Resolved (mkDirectory "/" [] [])
  | _ =>
      Rejected
        (mkError JsUndefined JsUndefined
                 (JsString "Cannot read property 'split' of undefined"))
  end.

Definition image : Docker := mkDocker "demo:latest" ["--host=tcp://dind"].

Definition failure (stderr : string) : Result CmdOutput :=
  Rejected (mkError (JsString "") (JsString stderr) JsUndefined).

(** The runner of the image, by the command and its operands. *)
Definition exec (command : string) (args : list string)
  : Result CmdOutput :=
  match skipn (List.length (optionsList image) + 7) args with
  | ["ls"; "-1ap"; "/"] => Resolved (mkOutput (JsString root_listing)
                                              (JsString ""))
  | ["ls"; "-1apR"; "/app"] => Resolved (mkOutput (JsString app_listing)
                                                  (JsString ""))
  | ["ls"; _; "/proc/1/fd"] => failure "ls: /proc/1/fd: Permission denied"
  | ["cat"; "/missing"] =>
      failure "cat: can't open '/missing': No such file or directory"
  | ["cat"; "/lowercase"] => failure "cat: /lowercase: no such file"
  | ["cat"; "/killed"] =>
      Rejected (mkError (JsString "No such file") JsUndefined
                        (JsString "spawn failed: No such file"))
  | _ => failure "sh: unknown operand"
  end.

Definition bytes (s : string) : option (list Byte.byte) :=
  Some (list_byte_of_string s).

(** The streams of three files: one that is read to its end, one whose
    command fails, and one with a chunk flagged in error on the way. *)
Definition stream (command : string) (args : list string)
  : list StreamData * option JsError :=
  match skipn (List.length (optionsList image) + 7) args with
  | ["cat"; "/app/node"] =>
      ([mkStreamData (bytes "ab") None None;
        mkStreamData (bytes "cd") None None;
        mkStreamData None None (Some 0)], None)
  | ["cat"; "/app/gone"] =>
      ([mkStreamData (bytes "x") None None;
        mkStreamData None (Some "cat: read error") None;
        mkStreamData None None (Some 1)], None)
  | ["cat"; "/app/flaky"] =>
      ([mkStreamData (bytes "a") None None;
        mkStreamData (bytes "??") (Some "input/output error") None;
        mkStreamData (bytes "b") None None;
        mkStreamData None None (Some 0)], None)
  | _ => ([mkStreamData None None (Some 127)], None)
  end.

Definition sub : SubProcess :=
  {| execute := exec; executeAsStream := stream |}.

(** The same image behind a runner that also writes a warning to the
    [stderr] of every command that succeeds. *)
Definition chatty_exec (command : string) (args : list string)
  : Result CmdOutput :=
  match exec command args with
  | Resolved out =>
      Resolved (mkOutput (stdout out)
                         (JsString "WARNING: no swap limit support"))
  | Rejected e => Rejected e
  end.

Definition chatty_sub : SubProcess :=
  {| execute := chatty_exec; executeAsStream := stream |}.

Definition lib : Libraries :=
  {| minimatch := glob;
     fspath_join := join;
     path_basename := basename;
     path_dirname := dirname;
     parseLsOutput := parse;
     HASH_ALGORITHM_SHA1 := "sha1";
     hashSupported := fun a => ((a =? "sha1") || (a =? "sha256"))%string;
     hexDigest := fun a b => (a ++ ":" ++ string_of_list_byte b)%string |}.

Definition globs : Globs :=
  mkGlobs ["**/package.json"] ["**/node"; "/app/**"].

(** A host on which no command can be started. *)
Definition unreachable (command : string) (args : list string)
  : Result CmdOutput :=
  failure "Cannot connect to the Docker daemon at tcp://dind".

Definition unreachable_sub : SubProcess :=
  {| execute := unreachable; executeAsStream := stream |}.

(** A layer whose stream promise rejects unless the command ended with
    exit code 0. *)
Definition strict_stream (command : string) (args : list string)
  : list StreamData * option JsError :=
  (fst (stream command args),
   if clean (fst (stream command args)) then None
   else Some (mkError JsUndefined JsUndefined (JsString "command failed"))).

Definition strict_sub : SubProcess :=
  {| execute := exec; executeAsStream := strict_stream |}.

(** An image in which nothing may be read. *)
Definition denied (command : string) (args : list string)
  : Result CmdOutput :=
  failure "sh: can't open '/etc/shadow': Permission denied".

Definition denied_sub : SubProcess :=
  {| execute := denied; executeAsStream := stream |}.

(** Extracted layers as a list of paths with their content; the parser
    refuses a database that does not start with its magic word. *)
Definition rpm : RpmImports :=
  {| ExtractedLayers := list (string * string);
     Buffer := string;
     StreamCallback := unit;
     streamToBuffer := tt;
     getContentAsBuffer := fun layers action =>
       option_map snd (find (fun entry => filePathMatches action (fst entry))
                            layers);
     getPackages := fun db =>
       if String.prefix "BDB:" db
       then Resolved (mkParserResponse (substring 4 (String.length db) db)
                                       None)
       else Resolved (mkParserResponse ""
                        (Some (mkError JsUndefined JsUndefined
                                       (JsString "unexpected magic")))) |}.

End Demo.

(** * Properties *)

(** ** The tree and its walker *)


(** The walker hands the files to the visitor in the order of [allFiles],
    and the state the visitor writes to is folded along that order. *)
Lemma iterateFiles_state {S} (it : DiscoveredFile -> S -> DiscoveredFile * S)
      (root : DiscoveredDirectory) :
  forall s,
    snd (iterateFiles root it s)
    = fold_left (fun s f => snd (it f s)) (allFiles root) s.
Proof.
  induction root as [n ds fs IH] using DiscoveredDirectory_ind.
  intro s. cbn [iterateFiles allFiles].
  rewrite fold_left_app.
  set (each_file := fix each_file (l : list DiscoveredFile) (s : S) :=
         match l with
         | [] => ([], s)
         | f :: l' =>
             let '(f', s') := it f s in
             let '(l'', s'') := each_file l' s' in (f' :: l'', s'')
         end).
  set (each_dir := fix each_dir (l : list DiscoveredDirectory) (s : S) :=
         match l with
         | [] => ([], s)
         | d :: l' =>
             let '(d', s') := iterateFiles d it s in
             let '(l'', s'') := each_dir l' s' in (d' :: l'', s'')
         end).
  assert (Hf : forall l s0,
             snd (each_file l s0) = fold_left (fun s f => snd (it f s)) l s0).
  { induction l as [|f l IHl]; intro s0; cbn; [reflexivity|].
    destruct (it f s0) as [f' s'] eqn:Ef. specialize (IHl s').
    destruct (each_file l s') as [l'' s'']. cbn in *. exact IHl. }
  assert (Hd : forall s0,
             snd (each_dir ds s0)
             = fold_left (fun s f => snd (it f s)) (flat_map allFiles ds) s0).
  { induction IH as [|d l Hd _ IHl]; intro s0; cbn; [reflexivity|].
    rewrite fold_left_app, <- Hd.
    destruct (iterateFiles d it s0) as [d' s'] eqn:Ed. specialize (IHl s').
    destruct (each_dir l s') as [l'' s'']. cbn in *. exact IHl. }
  specialize (Hf fs s). destruct (each_file fs s) as [fs' s1]. cbn in Hf.
  specialize (Hd s1). destruct (each_dir ds s1) as [ds' s2]. cbn in *.
  congruence.
Qed.

(** A visitor that only assigns to the entries, by [g], leaves a tree of
    the same shape whose files are the images by [g], in the same order. *)
Lemma iterateFiles_rewrite (g : DiscoveredFile -> DiscoveredFile)
      (root : DiscoveredDirectory) :
  allFiles (fst (iterateFiles root (fun f (_ : unit) => (g f, tt)) tt))
  = map g (allFiles root).
Proof.
  induction root as [n ds fs IH] using DiscoveredDirectory_ind.
  cbn [iterateFiles allFiles].
  set (it := fun f (_ : unit) => (g f, tt)).
  set (each_file := fix each_file (l : list DiscoveredFile) (s : unit) :=
         match l with
         | [] => ([], s)
         | f :: l' =>
             let '(f', s') := it f s in
             let '(l'', s'') := each_file l' s' in (f' :: l'', s'')
         end).
  set (each_dir := fix each_dir (l : list DiscoveredDirectory) (s : unit) :=
         match l with
         | [] => ([], s)
         | d :: l' =>
             let '(d', s') := iterateFiles d it s in
             let '(l'', s'') := each_dir l' s' in (d' :: l'', s'')
         end).
  assert (Hf : forall l, each_file l tt = (map g l, tt)).
  { induction l as [|f l IHl]; cbn; [reflexivity|]. now rewrite IHl. }
  assert (Hd : flat_map allFiles (fst (each_dir ds tt))
               = map g (flat_map allFiles ds)).
  { induction IH as [|d l Hd _ IHl]; cbn; [reflexivity|].
    fold it in Hd.
    destruct (iterateFiles d it tt) as [d' []] eqn:Ed.
    destruct (each_dir l tt) as [l'' s''] eqn:El. cbn in *.
    now rewrite map_app, Hd, IHl. }
  rewrite Hf. destruct (each_dir ds tt) as [ds' s2]. cbn in *.
  now rewrite map_app, Hd.
Qed.

(** ** Classification *)

Section Classification.

Context {sub : SubProcess} {lib : Libraries}.
Variable this : Docker.
Variables (globs : Globs) (exclusionGlobs : list string).

Lemma exclude_loop (p : string) (gs : list string) :
  forall b,
    fold_left
      (fun (exclude : bool) g =>
         if negb exclude && minimatch p g then true else exclude) gs b
    = b || excluded gs p.
Proof.
  induction gs as [|g gs IH]; intro b; cbn.
  - now rewrite orb_false_r.
  - rewrite IH. destruct b, (minimatch p g); reflexivity.
Qed.

Lemma visit_step (f : DiscoveredFile) (r : FindGlobsResult) :
  snd (findGlobs_visit globs exclusionGlobs f r)
  = mkResult
      (manifestFiles r
       ++ (if (is_manifest globs exclusionGlobs) (fullPath f) then [fullPath f] else []))
      (binaryFiles r
       ++ (if (is_binary globs exclusionGlobs) (fullPath f) then [fullPath f] else [])).
Proof.
  unfold findGlobs_visit. rewrite exclude_loop. cbn [orb].
  fold (fullPath f). unfold is_manifest, is_binary.
  destruct r as [m b].
  destruct (excluded exclusionGlobs (fullPath f)); cbn;
    [now rewrite !app_nil_r|].
  destruct (checkMatch (fullPath f) (Some (manifestGlobs globs))); cbn;
    [now rewrite !app_nil_r|].
  destruct (checkMatch (fullPath f) (Some (binaryGlobs globs))); cbn;
    now rewrite !app_nil_r.
Qed.

Lemma visit_walk (fs : list DiscoveredFile) :
  forall r0,
    fold_left (fun r f => snd (findGlobs_visit globs exclusionGlobs f r))
              fs r0
    = mkResult
        (manifestFiles r0 ++ filter (is_manifest globs exclusionGlobs) (map fullPath fs))
        (binaryFiles r0 ++ filter (is_binary globs exclusionGlobs) (map fullPath fs)).
Proof.
  induction fs as [|f fs IH]; intro r0; cbn [fold_left map filter].
  - destruct r0. cbn. now rewrite !app_nil_r.
  - rewrite IH, visit_step. cbn [manifestFiles binaryFiles].
    rewrite <- !app_assoc.
    destruct ((is_manifest globs exclusionGlobs) (fullPath f)), ((is_binary globs exclusionGlobs) (fullPath f));
      reflexivity.
Qed.

(** What the second walk of [findGlobs] computes from the tree. *)
Lemma classify_tree (root : DiscoveredDirectory) :
  snd (iterateFiles root (findGlobs_visit globs exclusionGlobs)
         (mkResult [] []))
  = mkResult (filter (is_manifest globs exclusionGlobs) (map fullPath (allFiles root)))
             (filter (is_binary globs exclusionGlobs) (map fullPath (allFiles root))).
Proof.
  rewrite iterateFiles_state, visit_walk. reflexivity.
Qed.

Lemma checkMatch_true (p : string) (gs : list string) :
  checkMatch p (Some gs) = true <->
  p <> ""%string /\ exists g, In g gs /\ minimatch p g = true.
Proof.
  unfold checkMatch. destruct (String.eqb_spec p "").
  - split; [discriminate | intros [Hp _]; contradiction].
  - rewrite existsb_exists. tauto.
Qed.

End Classification.

(** A resolved [findGlobs] walked a tree and classified its files. *)
Lemma findGlobs_resolved {sub : SubProcess} {lib : Libraries}
      (this : Docker) globs exclusionGlobs path recursive
      excludeRootDirectories log r log' :
  findGlobs this globs exclusionGlobs path recursive excludeRootDirectories
            log = (Resolved r, log') ->
  exists root,
    findGlobs_root this (with_default "/"%string path)
                   (with_default true recursive)
                   (with_default SystemDirectories excludeRootDirectories)
                   log = (Resolved root, log')
    /\ r = mkResult
             (filter (is_manifest globs (with_default [] exclusionGlobs))
                     (map fullPath (allFiles root)))
             (filter (is_binary globs (with_default [] exclusionGlobs))
                     (map fullPath (allFiles root))).
Proof.
  unfold findGlobs, bind, ret. intro H.
  destruct (findGlobs_root _ _ _ _ log) as [[root|e] l]; [|discriminate].
  injection H as <- <-. exists root. split; [reflexivity|].
  apply classify_tree.
Qed.

(** ** Runs of the model on the small image *)

Example demo_findGlobs :
  fst (findGlobs (sub:=Demo.sub) (lib:=Demo.lib) Demo.image Demo.globs
         (Some ["/app/lib/**"]) None None None [])
  = Resolved (mkResult ["/app/package.json"] ["/app/node"]).
Proof. vm_compute. reflexivity. Qed.

Example demo_findGlobs_log :
  snd (findGlobs (sub:=Demo.sub) (lib:=Demo.lib) Demo.image Demo.globs
         (Some ["/app/lib/**"]) None None None [])
  = [ls_invocation Demo.image false "/"; ls_invocation Demo.image true "/app"].
Proof. vm_compute. reflexivity. Qed.

Example demo_calcHash :
  fst (calcHashOfBinaryFiles (sub:=Demo.sub) (lib:=Demo.lib) Demo.image
         ["/app/node"; "/app/gone"; "/app/flaky"] None [])
  = Resolved [mkBinaryFileData "node" "/app" "sha1" "sha1:abcd";
              mkBinaryFileData "flaky" "/app" "sha1" "sha1:ab"].
Proof. vm_compute. reflexivity. Qed.

(** ** Exclusion and the two result lists *)

(** C1. Exclusion globs dominate: a path that matches one of the exclusion
    globs is dropped before it is classified, so it is in neither
    [manifestFiles] nor [binaryFiles] of the result of [findGlobs],
    whatever manifest or binary globs it also matches. *)
Theorem findGlobs_exclusion_dominates
        {sub : SubProcess} {lib : Libraries} (this : Docker)
        (globs : Globs) (exclusionGlobs : option (list string))
        (path : option string) (recursive : option bool)
        (excludeRootDirectories : option (list string))
        (log log' : list Invocation) (r : FindGlobsResult) (p g : string) :
  findGlobs this globs exclusionGlobs path recursive excludeRootDirectories
            log = (Resolved r, log') ->
  In g (with_default [] exclusionGlobs) ->
  minimatch p g = true ->
  ~ In p (manifestFiles r) /\ ~ In p (binaryFiles r).
Proof.
  intros Hrun Hg Hmatch.
  destruct (findGlobs_resolved _ _ _ _ _ _ _ _ _ Hrun) as (root & _ & ->).
  assert (Hex : excluded (with_default [] exclusionGlobs) p = true).
  { apply existsb_exists. exists g. auto. }
  cbn [manifestFiles binaryFiles].
  split; intro Hin; apply filter_In in Hin as [_ Hin];
    unfold is_manifest, is_binary in Hin; rewrite Hex in Hin; discriminate.
Qed.

(** On the small image, [/app/lib/package.json] matches the manifest glob
    and the exclusion glob, and is in neither list. *)
Lemma findGlobs_exclusion_dominates_witness :
  ~ In "/app/lib/package.json"%string (manifestFiles
        (mkResult ["/app/package.json"%string] ["/app/node"%string]))
  /\ ~ In "/app/lib/package.json"%string (binaryFiles
        (mkResult ["/app/package.json"%string] ["/app/node"%string])).
Proof.
  apply (findGlobs_exclusion_dominates (sub:=Demo.sub) (lib:=Demo.lib)
           Demo.image Demo.globs (Some ["/app/lib/**"%string]) None None None
           [] [ls_invocation Demo.image false "/";
               ls_invocation Demo.image true "/app"]
           _ "/app/lib/package.json"%string "/app/lib/**"%string).
  - vm_compute. reflexivity.
  - simpl. left. reflexivity.
  - vm_compute. reflexivity.
Defined.

(** C2. A path is in at most one of the two lists of the result of
    [findGlobs]; a path that matches a manifest glob is never recorded as a
    binary file, and a walked, non-excluded path that matches a manifest
    glob and a binary glob is recorded as a manifest file. ([path.join]
    never returns the empty string, the only path that [checkMatch]
    refuses.) *)
Theorem findGlobs_one_list
        {sub : SubProcess} {lib : Libraries} (this : Docker)
        (globs : Globs) (exclusionGlobs : option (list string))
        (path : option string) (recursive : option bool)
        (excludeRootDirectories : option (list string))
        (log log' : list Invocation) (r : FindGlobsResult) :
  findGlobs this globs exclusionGlobs path recursive excludeRootDirectories
            log = (Resolved r, log') ->
  (forall p, ~ (In p (manifestFiles r) /\ In p (binaryFiles r)))
  /\ (forall p g,
         In g (manifestGlobs globs) -> minimatch p g = true ->
         ~ In p (binaryFiles r))
  /\ exists root,
      findGlobs_root this (with_default "/"%string path)
                     (with_default true recursive)
                     (with_default SystemDirectories excludeRootDirectories)
                     log = (Resolved root, log')
      /\ forall f gm gb,
          In f (allFiles root) ->
          fullPath f <> ""%string ->
          excluded (with_default [] exclusionGlobs) (fullPath f) = false ->
          In gm (manifestGlobs globs) -> minimatch (fullPath f) gm = true ->
          In gb (binaryGlobs globs) -> minimatch (fullPath f) gb = true ->
          In (fullPath f) (manifestFiles r)
          /\ ~ In (fullPath f) (binaryFiles r).
Proof.
  intro Hrun.
  destruct (findGlobs_resolved _ _ _ _ _ _ _ _ _ Hrun) as (root & Hroot & ->).
  cbn [manifestFiles binaryFiles].
  assert (Hbin : forall p g,
             In g (manifestGlobs globs) -> minimatch p g = true ->
             ~ In p (filter (is_binary globs (with_default [] exclusionGlobs))
                            (map fullPath (allFiles root)))).
  { intros p g Hg Hm Hin. apply filter_In in Hin as [_ Hin].
    unfold is_binary in Hin.
    apply andb_prop in Hin as [Hin Hb]. apply andb_prop in Hin as [_ Hnm].
    apply checkMatch_true in Hb as [Hp _].
    assert (Hman : checkMatch p (Some (manifestGlobs globs)) = true)
      by (apply checkMatch_true; eauto).
    rewrite Hman in Hnm. discriminate. }
  split; [|split].
  - intros p [Hm Hb]. apply filter_In in Hm as [_ Hm].
    apply filter_In in Hb as [_ Hb]. unfold is_manifest in Hm.
    unfold is_binary in Hb.
    apply andb_prop in Hm as [_ Hm].
    apply andb_prop in Hb as [Hb _]. apply andb_prop in Hb as [_ Hb].
    rewrite Hm in Hb. discriminate.
  - exact Hbin.
  - exists root. split; [exact Hroot|].
    intros f gm gb Hf Hne Hex Hgm Hmm Hgb Hmb. split.
    + apply filter_In. split; [now apply in_map|].
      unfold is_manifest. rewrite Hex. cbn.
      apply checkMatch_true; eauto.
    + eapply Hbin; eauto.
Qed.

(** On the small image, [/app/node] is recorded once, as a binary file,
    and [/app/package.json], which matches [**/package.json] and
    [/app/**], as a manifest file only. *)
Lemma findGlobs_one_list_witness :
  (forall p, ~ (In p ["/app/package.json"%string]
                /\ In p ["/app/node"%string]))
  /\ ~ In "/app/package.json"%string ["/app/node"%string].
Proof.
  destruct (findGlobs_one_list (sub:=Demo.sub) (lib:=Demo.lib)
              Demo.image Demo.globs (Some ["/app/lib/**"%string])
              None None None []
              [ls_invocation Demo.image false "/";
               ls_invocation Demo.image true "/app"]
              (mkResult ["/app/package.json"%string] ["/app/node"%string]))
    as (Hdisjoint & Hmanifest & _).
  - vm_compute. reflexivity.
  - split; [exact Hdisjoint|].
    apply (Hmanifest "/app/package.json"%string "**/package.json"%string).
    + simpl. left. reflexivity.
    + vm_compute. reflexivity.
Defined.

(** ** The command runner *)

Lemma prefix_append (pat s : string) :
  String.prefix pat s = true <-> exists post, s = (pat ++ post)%string.
Proof.
  revert s. induction pat as [|c pat IH]; intro s.
  - split; [intros _; now exists s | intros _; now destruct s].
  - destruct s as [|c' s];
      [split; [discriminate | intros [? H]; discriminate]|].
    simpl. destruct (Ascii.ascii_dec c c') as [<-|Hne].
    + split.
      * intro H. apply IH in H as [post ->]. now exists post.
      * intros [post H]. apply IH. exists post. congruence.
    + split; [discriminate | intros [post H]; congruence].
Qed.

Lemma contains_tail (c : ascii) (s pat : string) :
  String.prefix pat (String c s) = false ->
  (contains (String c s) pat <-> contains s pat).
Proof.
  intro Hp. split; intros (pre & post & H).
  - destruct pre as [|c' pre]; cbn in H.
    + assert (String.prefix pat (String c s) = true)
        by (apply prefix_append; eauto).
      congruence.
    + injection H as _ ->. now exists pre, post.
  - exists (String c pre), post. cbn. now rewrite H.
Qed.

Lemma indexOf_from_range (s pat : string) :
  forall i, indexOf_from i s pat = -1 \/ i <= indexOf_from i s pat.
Proof.
  induction s as [|c s IH]; intro i; cbn [indexOf_from].
  - destruct (String.prefix pat ""); lia.
  - destruct (String.prefix pat (String c s)); [lia|].
    destruct (IH (i + 1)); lia.
Qed.

Lemma indexOf_from_contains (s pat : string) :
  forall i, 0 <= i -> (i <= indexOf_from i s pat <-> contains s pat).
Proof.
  induction s as [|c s IH]; intros i Hi; cbn [indexOf_from].
  - destruct (String.prefix pat "") eqn:Hp.
    + split; [|lia]. intros _. apply prefix_append in Hp as [post ->].
      now exists ""%string, post.
    + split; [lia|]. intros (pre & post & H).
      destruct pre; [|discriminate]. cbn in H.
      assert (String.prefix pat "" = true) by (apply prefix_append; eauto).
      congruence.
  - destruct (String.prefix pat (String c s)) eqn:Hp.
    + split; [|lia]. intros _. apply prefix_append in Hp as [post Hs].
      exists ""%string, post. exact Hs.
    + rewrite (contains_tail _ _ _ Hp), <- (IH (i + 1)) by lia.
      destruct (indexOf_from_range s pat (i + 1)); lia.
Qed.

(** [stderr.indexOf(errMsg) >= 0] tests whether [errMsg] occurs in
    [stderr]. *)
Lemma indexOf_contains (s pat : string) :
  (indexOf s pat >=? 0) = true <-> contains s pat.
Proof.
  unfold indexOf. rewrite Z.geb_le. apply indexOf_from_contains. lia.
Qed.

Section Runner.

Context {sub : SubProcess} {lib : Libraries}.
Variable this : Docker.

Lemma runSafe_unfold cmd args ignoreErrors log :
  runSafe this cmd args ignoreErrors log
  = (match execute "docker"
             (docker_run_args this cmd (with_default [] args)) with
     | Resolved out => Resolved out
     | Rejected error =>
         if tolerated
              (with_default ["No such file"; "file not found"]%string
                            ignoreErrors) error
         then Resolved (mkOutput (error_stdout error) (error_stderr error))
         else Rejected error
     end,
     log ++ [Execute "docker"
               (docker_run_args this cmd (with_default [] args))]).
Proof.
  unfold runSafe, try_catch, run, subProcess_execute, tolerated.
  cbn [with_default]. fold (docker_run_args this cmd (with_default [] args)).
  destruct (execute _ _) as [out|error]; [reflexivity|].
  destruct (error_stderr error); try reflexivity.
  destruct (existsb _ _); reflexivity.
Qed.

Lemma lsSafe_unfold path recursive log :
  lsSafe this path recursive log
  = runSafe this "ls"
      (Some [if with_default false recursive then "-1apR" else "-1ap"; path])
      (Some ["No such file"; "file not found"; "Permission denied"])%string
      log.
Proof.
  unfold lsSafe. destruct (with_default false recursive); reflexivity.
Qed.

Lemma tolerated_true ignoreErrors error :
  tolerated ignoreErrors error = true <->
  exists s pat,
    error_stderr error = JsString s /\ In pat ignoreErrors /\ contains s pat.
Proof.
  unfold tolerated. split.
  - destruct (error_stderr error) as [| | | |s]; try discriminate.
    intro H. apply existsb_exists in H as (pat & Hin & Hpat).
    apply indexOf_contains in Hpat. eauto.
  - intros (s & pat & -> & Hin & Hpat). apply existsb_exists.
    exists pat. split; [exact Hin|]. now apply indexOf_contains.
Qed.

End Runner.

(** C4, as the code has it. When the command of [runSafe] fails with a
    string [stderr] in which one of the ignore patterns occurs, [runSafe]
    returns [{stdout, stderr}] of the failure; the default patterns are
    ["No such file"] and ["file not found"], compared case-sensitively. A
    failure whose [stderr] holds none of the patterns is thrown again.
    [lsSafe] adds ["Permission denied"]: a listing that fails with
    [stderr] ["ls: /proc/1/fd: Permission denied"] returns. *)
Theorem runSafe_tolerates_listed_errors
        {sub : SubProcess} (this : Docker) (log : list Invocation) :
  (forall cmd args ignoreErrors error s pat,
      execute "docker" (docker_run_args this cmd (with_default [] args))
      = Rejected error ->
      error_stderr error = JsString s ->
      In pat (with_default ["No such file"; "file not found"]%string
                           ignoreErrors) ->
      contains s pat ->
      fst (runSafe this cmd args ignoreErrors log)
      = Resolved (mkOutput (error_stdout error) (JsString s)))
  /\ (forall cmd args ignoreErrors error,
         execute "docker" (docker_run_args this cmd (with_default [] args))
         = Rejected error ->
         (forall s pat,
             error_stderr error = JsString s ->
             In pat (with_default ["No such file"; "file not found"]%string
                                  ignoreErrors) ->
             ~ contains s pat) ->
         fst (runSafe this cmd args ignoreErrors log) = Rejected error)
  /\ (forall path recursive error,
         execute "docker"
           (docker_run_args this "ls"
              [if with_default false recursive then "-1apR" else "-1ap";
               path]%string)
         = Rejected error ->
         error_stderr error
         = JsString "ls: /proc/1/fd: Permission denied" ->
         fst (lsSafe this path recursive log)
         = Resolved (mkOutput (error_stdout error)
                       (JsString "ls: /proc/1/fd: Permission denied"))).
Proof.
  split; [|split].
  - intros cmd args ignoreErrors error s pat Hfail Hs Hpat Hin.
    rewrite runSafe_unfold, Hfail. cbn [fst].
    replace (tolerated _ error) with true; [now rewrite Hs|].
    symmetry. apply tolerated_true. eauto.
  - intros cmd args ignoreErrors error Hfail Hnone.
    rewrite runSafe_unfold, Hfail. cbn [fst].
    destruct (tolerated _ error) eqn:Htol; [|reflexivity].
    apply tolerated_true in Htol as (s & pat & Hs & Hpat & Hin).
    now destruct (Hnone s pat Hs Hpat).
  - intros path recursive error Hfail Hs.
    rewrite lsSafe_unfold, runSafe_unfold. cbn [with_default] in *.
    rewrite Hfail. cbn [fst].
    replace (tolerated _ error) with true; [now rewrite Hs|].
    symmetry. apply tolerated_true.
    exists "ls: /proc/1/fd: Permission denied"%string,
      "Permission denied"%string.
    split; [exact Hs|]. split; [simpl; tauto|].
    now exists "ls: /proc/1/fd: "%string, ""%string.
Qed.

(** On the small image: [cat /missing] fails with "No such file or
    directory" and [runSafe] returns; [cat /lowercase] fails with a
    message that holds neither default pattern and [runSafe] rejects;
    [ls /proc/1/fd] is denied and [lsSafe] returns. *)
Lemma runSafe_tolerates_listed_errors_witness :
  fst (runSafe (sub:=Demo.sub) Demo.image "cat" (Some ["/missing"%string])
               None [])
  = Resolved
      (mkOutput (JsString "")
         (JsString "cat: can't open '/missing': No such file or directory"))
  /\ fst (runSafe (sub:=Demo.sub) Demo.image "cat"
                  (Some ["/lowercase"%string]) None [])
     = Rejected (mkError (JsString "")
                         (JsString "cat: /lowercase: no such file")
                         JsUndefined)
  /\ fst (lsSafe (sub:=Demo.sub) Demo.image "/proc/1/fd" None [])
     = Resolved (mkOutput (JsString "")
                   (JsString "ls: /proc/1/fd: Permission denied")).
Proof.
  destruct (runSafe_tolerates_listed_errors (sub:=Demo.sub) Demo.image [])
    as (Hreturn & Hthrow & Hls).
  split; [|split].
  - apply (Hreturn "cat"%string (Some ["/missing"%string]) None
             (mkError (JsString "")
                (JsString
                   "cat: can't open '/missing': No such file or directory")
                JsUndefined)
             _ "No such file"%string).
    + vm_compute. reflexivity.
    + reflexivity.
    + simpl. left. reflexivity.
    + exists "cat: can't open '/missing': "%string, " or directory"%string.
      reflexivity.
  - apply (Hthrow "cat"%string (Some ["/lowercase"%string]) None).
    + vm_compute. reflexivity.
    + intros s pat Hs Hpat Hin. apply indexOf_contains in Hin.
      injection Hs as <-. simpl in Hpat.
      destruct Hpat as [<-|[<-|[]]]; vm_compute in Hin; discriminate.
  - apply (Hls "/proc/1/fd"%string None
             (mkError (JsString "")
                      (JsString "ls: /proc/1/fd: Permission denied")
                      JsUndefined)).
    + vm_compute. reflexivity.
    + reflexivity.
Defined.

(** C4, as it is worded, does not hold: with the default patterns spelled
    ["no such file"] and ["file not found"], a failure whose [stderr]
    holds ["no such file"] would be returned, and [runSafe] throws it. *)
Lemma runSafe_lowercase_pattern_rejected :
  ~ (forall (sub : SubProcess) (this : Docker) cmd args error s pat log,
        execute "docker" (docker_run_args this cmd (with_default [] args))
        = Rejected error ->
        error_stderr error = JsString s ->
        In pat ["no such file"; "file not found"]%string ->
        contains s pat ->
        fst (runSafe this cmd args None log)
        = Resolved (mkOutput (error_stdout error) (JsString s))).
Proof.
  intro claim.
  specialize (claim Demo.sub Demo.image "cat"%string
                    (Some ["/lowercase"%string])
                    (mkError (JsString "")
                             (JsString "cat: /lowercase: no such file")
                             JsUndefined)
                    "cat: /lowercase: no such file"%string
                    "no such file"%string []).
  assert (H : fst (runSafe (sub:=Demo.sub) Demo.image "cat"
                           (Some ["/lowercase"%string]) None [])
              = Rejected (mkError (JsString "")
                            (JsString "cat: /lowercase: no such file")
                            JsUndefined))
    by (vm_compute; reflexivity).
  rewrite claim in H; [discriminate| | | |].
  - vm_compute. reflexivity.
  - reflexivity.
  - simpl. left. reflexivity.
  - now exists "cat: /lowercase: "%string, ""%string.
Qed.

(** C10. A failure whose [stderr] is not a string is thrown again by
    [runSafe], whatever the ignore patterns and whatever the other fields
    of the error hold. *)
Theorem runSafe_rethrows_without_stderr_string
        {sub : SubProcess} (this : Docker)
        (cmd : string) (args ignoreErrors : option (list string))
        (error : JsError) (log : list Invocation) :
  execute "docker" (docker_run_args this cmd (with_default [] args))
  = Rejected error ->
  typeof_string (error_stderr error) = false ->
  runSafe this cmd args ignoreErrors log
  = (Rejected error,
     log ++ [Execute "docker"
               (docker_run_args this cmd (with_default [] args))]).
Proof.
  intros Hfail Htype. rewrite runSafe_unfold, Hfail.
  unfold tolerated. destruct (error_stderr error); try reflexivity.
  discriminate.
Qed.

(** On the small image, [cat /killed] fails with no [stderr] while
    "No such file" stands in [stdout] and in the message: [runSafe]
    rejects with that error. *)
Lemma runSafe_rethrows_without_stderr_string_witness :
  runSafe (sub:=Demo.sub) Demo.image "cat" (Some ["/killed"%string])
          (Some ["No such file"%string]) []
  = (Rejected (mkError (JsString "No such file") JsUndefined
                       (JsString "spawn failed: No such file")),
     [Execute "docker"
        (docker_run_args Demo.image "cat" ["/killed"%string])]).
Proof.
  apply (runSafe_rethrows_without_stderr_string (sub:=Demo.sub) Demo.image
           "cat"%string (Some ["/killed"%string])
           (Some ["No such file"%string])
           (mkError (JsString "No such file") JsUndefined
                    (JsString "spawn failed: No such file")) []).
  - vm_compute. reflexivity.
  - reflexivity.
Defined.

(** ** The commands a scan issues *)

Lemma issues_ret {A} P (a : A) : issues P (ret a).
Proof. intro log. exists []. now rewrite app_nil_r. Qed.

Lemma issues_lift {A} P (r : Result A) : issues P (lift r).
Proof. intro log. exists []. now rewrite app_nil_r. Qed.

Lemma issues_bind {A B} P (m : M A) (k : A -> M B) :
  issues P m -> (forall a, issues P (k a)) -> issues P (bind m k).
Proof.
  intros Hm Hk log. unfold bind.
  destruct (Hm log) as (i1 & H1 & HP1).
  destruct (m log) as [[a|e] l]; cbn in H1; subst l.
  - destruct (Hk a (log ++ i1)) as (i2 & H2 & HP2).
    exists (i1 ++ i2). rewrite H2, app_assoc. split; [reflexivity|].
    apply Forall_app. auto.
  - exists i1. auto.
Qed.

Lemma issues_for_of {A B} P (body : A -> M B) (xs : list A) :
  (forall x, issues P (body x)) -> issues P (for_of body xs).
Proof.
  intro Hbody. induction xs as [|x xs IH]; cbn [for_of].
  - apply issues_ret.
  - apply issues_bind; [apply Hbody|]. intro y.
    apply issues_bind; [exact IH|]. intro ys. apply issues_ret.
Qed.

Section Scan.

Context {sub : SubProcess} {lib : Libraries}.
Variable this : Docker.

Lemma lsSafe_issues (P : Invocation -> Prop) path recursive :
  P (ls_invocation this (with_default false recursive) path) ->
  issues P (lsSafe this path recursive).
Proof.
  intros HP log.
  exists [ls_invocation this (with_default false recursive) path].
  rewrite lsSafe_unfold, runSafe_unfold. cbn [snd with_default].
  split; [|now constructor].
  unfold ls_invocation. now destruct (with_default false recursive).
Qed.

Lemma findGlobs_subdir_issues excl subdir :
  issues (root_scan_call this excl) (findGlobs_subdir this excl subdir).
Proof.
  unfold findGlobs_subdir.
  destruct (existsb _ excl) eqn:Hex; [apply issues_ret|].
  apply issues_bind.
  - apply lsSafe_issues. right. exists (dir_name subdir). auto.
  - intro out. apply issues_bind; [apply issues_lift|].
    intro t. apply issues_ret.
Qed.

Lemma findGlobs_root_issues excl :
  issues (root_scan_call this excl) (findGlobs_root this "/" true excl).
Proof.
  unfold findGlobs_root. cbn [andb String.eqb Ascii.eqb Bool.eqb].
  apply issues_bind; [apply lsSafe_issues; now left|].
  intro out. apply issues_bind; [apply issues_lift|].
  intro root. apply issues_bind.
  - apply issues_for_of. intro d. apply findGlobs_subdir_issues.
  - intro ds. apply issues_ret.
Qed.

Lemma ls_invocation_shape recursive path :
  ls_invocation this recursive path
  = Execute "docker"
      ((optionsList this
        ++ ["run"; "--rm"; "--entrypoint"; empty_entrypoint;
            "--network"; "none"; targetImage this])
       ++ ["ls"; if recursive then "-1apR" else "-1ap"; path]).
Proof.
  unfold ls_invocation, docker_run_args. now rewrite <- !app_assoc.
Qed.

Lemma listing_operands (front1 front2 : list string) a1 b1 c1 a2 b2 c2 :
  front1 ++ [a1; b1; c1] = front2 ++ [a2; b2; c2] -> b1 = b2 /\ c1 = c2.
Proof.
  intro H.
  change (front1 ++ [a1; b1; c1]) with (front1 ++ [a1; b1] ++ [c1]) in H.
  change (front2 ++ [a2; b2; c2]) with (front2 ++ [a2; b2] ++ [c2]) in H.
  rewrite !app_assoc in H. apply app_inj_tail in H as [H ->].
  change (front1 ++ [a1; b1]) with (front1 ++ [a1] ++ [b1]) in H.
  change (front2 ++ [a2; b2]) with (front2 ++ [a2] ++ [b2]) in H.
  rewrite !app_assoc in H. apply app_inj_tail in H as [_ ->]. auto.
Qed.

Lemma root_scan_call_not_excluded excl inv n :
  root_scan_call this excl inv -> In n excl ->
  ~ recursive_listing_of ("/" ++ n) inv.
Proof.
  intros [->|(d & Hd & ->)] Hn [front H];
    rewrite ls_invocation_shape in H; injection H as H;
    apply listing_operands in H as [Hparams Hpath].
  - discriminate.
  - injection Hpath as ->.
    assert (existsb (String.eqb n) excl = true).
    { apply existsb_exists. exists n. split; [exact Hn|].
      apply String.eqb_refl. }
    congruence.
Qed.

End Scan.

(** C5. In a recursive scan from ["/"], [findGlobs] issues no recursive
    listing of a top-level directory whose name is in
    [excludeRootDirectories] (by default ["dev"], ["proc"], ["sys"]); with
    [["proc"; "sys"; "dev"]] it issues none of [/proc], [/sys] or [/dev]. *)
Theorem findGlobs_skips_excluded_roots
        {sub : SubProcess} {lib : Libraries} (this : Docker)
        (globs : Globs) (exclusionGlobs : option (list string))
        (path : option string) (recursive : option bool)
        (excludeRootDirectories : option (list string))
        (log : list Invocation) :
  with_default "/"%string path = "/"%string ->
  with_default true recursive = true ->
  exists issued,
    snd (findGlobs this globs exclusionGlobs path recursive
                   excludeRootDirectories log) = log ++ issued
    /\ (forall n inv,
           In n (with_default SystemDirectories excludeRootDirectories) ->
           In inv issued ->
           ~ recursive_listing_of ("/" ++ n) inv)
    /\ (excludeRootDirectories = Some ["proc"; "sys"; "dev"]%string ->
        forall inv,
          In inv issued ->
          ~ recursive_listing_of "/proc" inv
          /\ ~ recursive_listing_of "/sys" inv
          /\ ~ recursive_listing_of "/dev" inv).
Proof.
  intros Hpath Hrec.
  assert (Hissues :
            issues (root_scan_call
                      this
                      (with_default SystemDirectories excludeRootDirectories))
                   (findGlobs this globs exclusionGlobs path recursive
                              excludeRootDirectories)).
  { unfold findGlobs. rewrite Hpath, Hrec.
    apply issues_bind; [apply findGlobs_root_issues|].
    intro root. apply issues_ret. }
  destruct (Hissues log) as (issued & Hlog & Hall).
  exists issued. split; [exact Hlog|].
  rewrite Forall_forall in Hall.
  assert (Hno : forall n inv,
             In n (with_default SystemDirectories excludeRootDirectories) ->
             In inv issued -> ~ recursive_listing_of ("/" ++ n) inv).
  { intros n inv Hn Hinv.
    eapply root_scan_call_not_excluded; eauto. }
  split; [exact Hno|].
  intros -> inv Hinv. cbn [with_default] in Hno.
  repeat split.
  - apply (Hno "proc"%string inv); simpl; tauto.
  - apply (Hno "sys"%string inv); simpl; tauto.
  - apply (Hno "dev"%string inv); simpl; tauto.
Qed.

(** On the small image, whose root holds [app/] and [proc/], the default
    scan never lists [/proc] recursively. *)
Lemma findGlobs_skips_excluded_roots_witness :
  ~ In (ls_invocation Demo.image true "/proc")
       (snd (findGlobs (sub:=Demo.sub) (lib:=Demo.lib) Demo.image Demo.globs
               None None None None [])).
Proof.
  destruct (findGlobs_skips_excluded_roots
              (sub:=Demo.sub) (lib:=Demo.lib) Demo.image Demo.globs
              None None None None [])
    as (issued & Hlog & Hno & _).
  - reflexivity.
  - reflexivity.
  - rewrite Hlog. intro Hin.
    apply (Hno "proc"%string (ls_invocation Demo.image true "/proc")).
    + simpl. right. left. reflexivity.
    + exact Hin.
    + exists (optionsList Demo.image
              ++ ["run"; "--rm"; "--entrypoint"; empty_entrypoint;
                  "--network"; "none"; targetImage Demo.image]).
      reflexivity.
Defined.

(** ** Re-rooting of the top-level subtrees *)

Lemma allFiles_fields (n : string) (t : DiscoveredDirectory) :
  allFiles (mkDirectory n (subDirs t) (files t)) = allFiles t.
Proof. now destruct t. Qed.

Lemma for_of_resolved {A B} (body : A -> M B) (xs : list A) :
  forall log ys log',
    for_of body xs log = (Resolved ys, log') ->
    Forall2 (fun x y => exists l l', body x l = (Resolved y, l')) xs ys.
Proof.
  induction xs as [|x xs IH]; intros log ys log' H; cbn in H.
  - injection H as <- _. constructor.
  - unfold bind in H.
    destruct (body x log) as [[y|e] l1] eqn:Hx; [|discriminate].
    destruct (for_of body xs l1) as [[ys'|e] l2] eqn:Hxs; [|discriminate].
    injection H as <- _. constructor; eauto.
Qed.

Section Reroot.

Context {sub : SubProcess} {lib : Libraries}.
Variable this : Docker.

Lemma lsSafe_any_log path recursive log1 log2 :
  fst (lsSafe this path recursive log1)
  = fst (lsSafe this path recursive log2).
Proof. now rewrite !lsSafe_unfold, !runSafe_unfold. Qed.

Lemma findGlobs_subdir_resolved excl subdir log subdir' log' :
  findGlobs_subdir this excl subdir log = (Resolved subdir', log') ->
  dir_name subdir' = dir_name subdir
  /\ (existsb (String.eqb (dir_name subdir)) excl = false ->
      exists out listing,
        fst (lsSafe this ("/" ++ dir_name subdir) (Some true) [])
        = Resolved out
        /\ parseLsOutput (stdout out) = Resolved listing
        /\ allFiles subdir'
           = map (reroot (dir_name subdir)) (allFiles listing)).
Proof.
  unfold findGlobs_subdir.
  destruct (existsb _ excl) eqn:Hex.
  - intro H. injection H as <- _. split; [reflexivity | discriminate].
  - unfold bind, lift, ret. intro H.
    destruct (lsSafe this _ _ log) as [[out|e] l1] eqn:Hls; [|discriminate].
    destruct (parseLsOutput (stdout out)) as [listing|e] eqn:Hparse;
      [|discriminate].
    injection H as <- _. split; [reflexivity|]. intros _.
    exists out, listing. split; [|split].
    + rewrite (lsSafe_any_log _ _ [] log), Hls. reflexivity.
    + exact Hparse.
    + rewrite allFiles_fields.
      apply (iterateFiles_rewrite (reroot (dir_name subdir))).
Qed.

End Reroot.

(** C6. In a recursive scan from ["/"], the tree that [findGlobs]
    classifies holds, under every top-level directory that is not
    excluded, the files of that directory's recursive listing with their
    [path] field prefixed by ["/"] and the directory's name; as
    [path.join] keeps a leading separator, every full path classified
    there is absolute. *)
Theorem findGlobs_reroots_subtrees
        {sub : SubProcess} {lib : Libraries} (this : Docker)
        (globs : Globs) (exclusionGlobs : option (list string))
        (path : option string) (recursive : option bool)
        (excludeRootDirectories : option (list string))
        (log log' : list Invocation) (r : FindGlobsResult) :
  with_default "/"%string path = "/"%string ->
  with_default true recursive = true ->
  findGlobs this globs exclusionGlobs path recursive excludeRootDirectories
            log = (Resolved r, log') ->
  exists root,
    findGlobs_root this "/" true
                   (with_default SystemDirectories excludeRootDirectories)
                   log = (Resolved root, log')
    /\ r = snd (iterateFiles root
                  (findGlobs_visit globs (with_default [] exclusionGlobs))
                  (mkResult [] []))
    /\ forall subdir,
        In subdir (subDirs root) ->
        existsb (String.eqb (dir_name subdir))
                (with_default SystemDirectories excludeRootDirectories)
        = false ->
        exists out listing,
          fst (lsSafe this ("/" ++ dir_name subdir) (Some true) [])
          = Resolved out
          /\ parseLsOutput (stdout out) = Resolved listing
          /\ allFiles subdir
             = map (fun f =>
                      mkFile (file_name f)
                             ("/" ++ dir_name subdir ++ file_path f))
                   (allFiles listing)
          /\ ((forall dir name,
                  String.prefix "/" dir = true ->
                  String.prefix "/" (fspath_join dir name) = true) ->
              forall f,
                In f (allFiles subdir) ->
                String.prefix "/" (fullPath f) = true).
Proof.
  intros Hpath Hrec Hrun. unfold findGlobs in Hrun.
  rewrite Hpath, Hrec in Hrun. unfold bind at 1, ret at 1 in Hrun.
  destruct (findGlobs_root this "/" true _ log) as [[root|e] l] eqn:Hroot;
    [|discriminate].
  injection Hrun as <- <-. exists root.
  split; [reflexivity|]. split; [reflexivity|].
  intros subdir Hin Hex.
  unfold findGlobs_root in Hroot.
  cbn [andb String.eqb Ascii.eqb Bool.eqb] in Hroot.
  unfold bind, lift, ret in Hroot.
  destruct (lsSafe this "/" (Some false) log) as [[out0|e] l0];
    [|discriminate].
  destruct (parseLsOutput (stdout out0)) as [root0|e]; [|discriminate].
  destruct (for_of _ (subDirs root0) l0) as [[ds|e] l1] eqn:Hfor;
    [|discriminate].
  injection Hroot as <- _. cbn [subDirs] in Hin.
  apply for_of_resolved in Hfor.
  assert (Hsub : exists subdir0 la lb,
             findGlobs_subdir
               this (with_default SystemDirectories excludeRootDirectories)
               subdir0 la = (Resolved subdir, lb)).
  { clear - Hfor Hin. induction Hfor as [|x y xs ys Hxy _ IH].
    - destruct Hin.
    - destruct Hin as [->|Hin]; [|auto].
      destruct Hxy as (la & lb & Hxy). eauto. }
  destruct Hsub as (subdir0 & la & lb & Hsub).
  apply findGlobs_subdir_resolved in Hsub as [Hname Hfiles].
  rewrite <- Hname in Hfiles. destruct (Hfiles Hex) as (out & listing & Hls & Hparse & Hall).
  exists out, listing. repeat split; try assumption.
  intros Hjoin f Hf. rewrite Hall in Hf.
  apply in_map_iff in Hf as (f0 & <- & _).
  unfold fullPath, reroot. cbn [file_path file_name].
  apply Hjoin. apply prefix_append. eexists. reflexivity.
Qed.

(** On the small image, the files listed under [/app] are classified with
    their paths re-rooted at [/app]. *)
Lemma findGlobs_reroots_subtrees_witness :
  exists root,
    findGlobs_root (sub:=Demo.sub) (lib:=Demo.lib) Demo.image "/" true
                   SystemDirectories []
    = (Resolved root,
       [ls_invocation Demo.image false "/";
        ls_invocation Demo.image true "/app"])
    /\ mkResult ["/app/package.json"; "/app/lib/package.json"]%string
                ["/app/node"; "/app/lib/libz.so"]%string
       = snd (iterateFiles root
                (findGlobs_visit (lib:=Demo.lib) Demo.globs []) (mkResult [] []))
    /\ forall subdir,
        In subdir (subDirs root) ->
        existsb (String.eqb (dir_name subdir)) SystemDirectories = false ->
        exists out listing,
          fst (lsSafe (sub:=Demo.sub) Demo.image ("/" ++ dir_name subdir)
                      (Some true) [])
          = Resolved out
          /\ Demo.parse (stdout out) = Resolved listing
          /\ allFiles subdir
             = map (fun f =>
                      mkFile (file_name f)
                             ("/" ++ dir_name subdir ++ file_path f))
                   (allFiles listing)
          /\ ((forall dir name,
                  String.prefix "/" dir = true ->
                  String.prefix "/" (Demo.join dir name) = true) ->
              forall f,
                In f (allFiles subdir) ->
                String.prefix "/" (fullPath (lib:=Demo.lib) f) = true).
Proof.
  apply (findGlobs_reroots_subtrees (sub:=Demo.sub) (lib:=Demo.lib)
           Demo.image Demo.globs None None None None []).
  - reflexivity.
  - reflexivity.
  - vm_compute. reflexivity.
Defined.

(** ** Two runs against the same listings *)

Lemma related_eq {A} (r1 r2 : Result A) : related eq r1 r2 -> r1 = r2.
Proof. destruct r1, r2; cbn; intro H; now subst || destruct H. Qed.

Lemma agree_ret {A} (R : A -> A -> Prop) a1 a2 :
  R a1 a2 -> agree R (ret a1) (ret a2).
Proof. intros H log1 log2. exact H. Qed.

Lemma agree_lift {A} (r : Result A) : agree eq (lift r) (lift r).
Proof. intros log1 log2. destruct r; reflexivity. Qed.

Lemma agree_bind {A B} (R : A -> A -> Prop) (Q : B -> B -> Prop)
      (m1 m2 : M A) (k1 k2 : A -> M B) :
  agree R m1 m2 ->
  (forall a1 a2, R a1 a2 -> agree Q (k1 a1) (k2 a2)) ->
  agree Q (bind m1 k1) (bind m2 k2).
Proof.
  intros Hm Hk log1 log2. unfold bind. specialize (Hm log1 log2).
  destruct (m1 log1) as [[a1|e1] l1], (m2 log2) as [[a2|e2] l2];
    cbn in Hm; try contradiction.
  - now apply Hk.
  - exact Hm.
Qed.

Lemma agree_for_of {A B} (body1 body2 : A -> M B) (xs : list A) :
  (forall x, agree eq (body1 x) (body2 x)) ->
  agree eq (for_of body1 xs) (for_of body2 xs).
Proof.
  intro Hbody. induction xs as [|x xs IH]; cbn [for_of].
  - now apply agree_ret.
  - eapply agree_bind; [apply Hbody|]. intros y ? <-.
    eapply agree_bind; [exact IH|]. intros ys ? <-. now apply agree_ret.
Qed.

Section TwoRunners.

Variables (sub1 sub2 : SubProcess) (lib : Libraries) (this : Docker).

Hypothesis same_listings :
  forall params path,
    same_listing
      (execute (SubProcess:=sub1) "docker"
               (docker_run_args this "ls" [params; path]))
      (execute (SubProcess:=sub2) "docker"
               (docker_run_args this "ls" [params; path])).

Lemma lsSafe_agree path recursive :
  agree (fun o1 o2 => stdout o1 = stdout o2)
        (lsSafe (sub:=sub1) this path recursive)
        (lsSafe (sub:=sub2) this path recursive).
Proof.
  intros log1 log2. rewrite !lsSafe_unfold, !runSafe_unfold.
  cbn [fst with_default].
  specialize (same_listings
                (if with_default false recursive then "-1apR" else "-1ap")
                path).
  destruct (execute _ _) as [o1|e1], (execute _ _) as [o2|e2];
    cbn in same_listings; try contradiction.
  - exact same_listings.
  - subst e2. destruct (tolerated _ e1); reflexivity.
Qed.

Lemma findGlobs_subdir_agree excl subdir :
  agree eq (findGlobs_subdir (sub:=sub1) (lib:=lib) this excl subdir)
           (findGlobs_subdir (sub:=sub2) (lib:=lib) this excl subdir).
Proof.
  unfold findGlobs_subdir.
  destruct (existsb _ excl); [now apply agree_ret|].
  eapply agree_bind; [apply lsSafe_agree|]. intros o1 o2 ->.
  eapply agree_bind; [apply agree_lift|]. intros t ? <-.
  now apply agree_ret.
Qed.

Lemma findGlobs_root_agree path recursive excl :
  agree eq (findGlobs_root (sub:=sub1) (lib:=lib) this path recursive excl)
           (findGlobs_root (sub:=sub2) (lib:=lib) this path recursive excl).
Proof.
  unfold findGlobs_root. destruct (recursive && (path =? "/")%string).
  - eapply agree_bind; [apply lsSafe_agree|]. intros o1 o2 ->.
    eapply agree_bind; [apply agree_lift|]. intros root ? <-.
    eapply agree_bind;
      [apply agree_for_of; intro; apply findGlobs_subdir_agree|].
    intros ds ? <-. now apply agree_ret.
  - eapply agree_bind; [apply lsSafe_agree|]. intros o1 o2 ->.
    apply agree_lift.
Qed.

End TwoRunners.

(** C8. [findGlobs] is determined by the listings: two runs with the same
    globs and arguments, against runners that answer every [ls] command
    line with the same listing, end alike, with the same [manifestFiles]
    and the same [binaryFiles] in the same order, whatever was run
    before. *)
Theorem findGlobs_deterministic
        (sub1 sub2 : SubProcess) {lib : Libraries} (this : Docker)
        (globs : Globs) (exclusionGlobs : option (list string))
        (path : option string) (recursive : option bool)
        (excludeRootDirectories : option (list string))
        (log1 log2 : list Invocation) :
  (forall params path,
      same_listing
        (execute (SubProcess:=sub1) "docker"
                 (docker_run_args this "ls" [params; path]))
        (execute (SubProcess:=sub2) "docker"
                 (docker_run_args this "ls" [params; path]))) ->
  fst (findGlobs (sub:=sub1) this globs exclusionGlobs path recursive
                 excludeRootDirectories log1)
  = fst (findGlobs (sub:=sub2) this globs exclusionGlobs path recursive
                   excludeRootDirectories log2).
Proof.
  intro Hsame. apply related_eq. revert log1 log2.
  change (agree eq
            (findGlobs (sub:=sub1) this globs exclusionGlobs path recursive
                       excludeRootDirectories)
            (findGlobs (sub:=sub2) this globs exclusionGlobs path recursive
                       excludeRootDirectories)).
  unfold findGlobs.
  eapply agree_bind; [now apply findGlobs_root_agree|].
  intros root ? <-. now apply agree_ret.
Qed.

(** ** The streaming hasher *)

Lemma hashed_bytes_app (cs1 cs2 : list StreamData) :
  hashed_bytes (cs1 ++ cs2) = hashed_bytes cs1 ++ hashed_bytes cs2.
Proof. apply flat_map_app. Qed.

Lemma emits_false (cs : list StreamData) :
  emits cs = false <-> forall sd, In sd cs -> exit_zero sd = false.
Proof.
  unfold emits. induction cs as [|sd cs IH]; cbn.
  - split; [intros _ sd [] | reflexivity].
  - fold (exit_zero sd). rewrite orb_false_iff, IH. split.
    + intros [H1 H2] sd' [<-|Hin]; auto.
    + intro H. split; [apply H; now left | intros sd' Hin; apply H; now right].
Qed.

Section Hasher.

Context {sub : SubProcess} {lib : Libraries}.
Variable this : Docker.
Variables (file hashType : string).

Let cb := calcHash_chunk file hashType.

Let pushed (hex : string) : BinaryFileData :=
  mkBinaryFileData (path_basename file) (path_dirname file) hashType hex.

(** One chunk on a hash that is still open. *)
Lemma chunk_open alg input arr sd :
  cb sd (mkHash alg input false, arr)
  = Resolved
      (mkHash alg (input ++ chunk_bytes sd) (exit_zero sd),
       arr ++ (if exit_zero sd
               then [pushed (hexDigest alg (input ++ chunk_bytes sd))]
               else [])).
Proof.
  unfold cb, calcHash_chunk, chunk_bytes, exit_zero, hash_update.
  cbn [hash_finalized hash_algorithm hash_input].
  destruct (data sd) as [d|], (truthy_string (err sd));
    cbn [negb and_then]; rewrite ?app_nil_r;
    destruct (exitCode sd) as [[|c|c]|]; cbn; rewrite ?app_nil_r;
    reflexivity.
Qed.

(** One chunk on a hash whose digest was taken: it passes only if it
    neither feeds the hash nor asks for the digest. *)
Lemma chunk_finalized alg input arr sd st :
  cb sd (mkHash alg input true, arr) = Resolved st ->
  st = (mkHash alg input true, arr) /\ exit_zero sd = false.
Proof.
  unfold cb, calcHash_chunk, exit_zero, hash_update.
  cbn [hash_finalized].
  destruct (data sd) as [d|], (truthy_string (err sd));
    cbn [negb and_then]; try discriminate;
    destruct (exitCode sd) as [[|c|c]|]; cbn; try discriminate;
    intro H; injection H as <-; auto.
Qed.

Lemma feed_finalized cs :
  forall alg input arr st,
    feed cb cs (mkHash alg input true, arr) = Resolved st ->
    st = (mkHash alg input true, arr) /\ emits cs = false.
Proof.
  induction cs as [|sd cs IH]; intros alg input arr st H; cbn [feed] in H.
  - injection H as <-. auto.
  - destruct (cb sd (mkHash alg input true, arr)) as [st1|e] eqn:Hsd;
      [|discriminate].
    apply chunk_finalized in Hsd as [-> Hz]. cbn [and_then] in H.
    apply IH in H as [-> Hcs]. split; [reflexivity|].
    unfold emits in *. cbn. fold (exit_zero sd). now rewrite Hz.
Qed.

(** While no chunk reports exit code 0 the hash stays open and nothing
    is pushed. *)
Lemma feed_open cs :
  forall alg input arr,
    emits cs = false ->
    feed cb cs (mkHash alg input false, arr)
    = Resolved (mkHash alg (input ++ hashed_bytes cs) false, arr).
Proof.
  induction cs as [|sd cs IH]; intros alg input arr Hno; cbn [feed].
  - cbn. now rewrite app_nil_r.
  - pose proof (proj1 (emits_false _) Hno) as Hall.
    rewrite chunk_open, (Hall sd) by now left. cbn [and_then].
    rewrite app_nil_r, IH.
    + cbn [hashed_bytes flat_map]. fold (chunk_bytes sd).
      fold (hashed_bytes cs). now rewrite app_assoc.
    + apply emits_false. intros sd' Hin. apply Hall. now right.
Qed.

(** A stream whose last chunk is the first to report exit code 0 pushes
    one record, the digest of the bytes of its chunks. *)
Lemma feed_terminated pre last alg input arr :
  emits pre = false ->
  exit_zero last = true ->
  feed cb (pre ++ [last]) (mkHash alg input false, arr)
  = Resolved
      (mkHash alg (input ++ hashed_bytes (pre ++ [last])) true,
       arr ++ [pushed (hexDigest alg
                         (input ++ hashed_bytes (pre ++ [last])))]).
Proof.
  intros Hpre Hlast.
  assert (Hfeed : forall cs1 cs2 st,
             feed cb (cs1 ++ cs2) st
             = and_then (feed cb cs1 st) (feed cb cs2)).
  { induction cs1 as [|sd cs1 IH]; intros cs2 st; cbn; [reflexivity|].
    destruct (cb sd st); cbn; [apply IH | reflexivity]. }
  rewrite Hfeed, feed_open by exact Hpre. cbn [and_then feed].
  rewrite chunk_open, Hlast. cbn [and_then].
  rewrite hashed_bytes_app. cbn [hashed_bytes flat_map].
  fold (chunk_bytes last). now rewrite !app_nil_r, !app_assoc.
Qed.

(** Whatever the stream, if the callback never throws, it pushed one
    record when a chunk reported exit code 0 and none otherwise. *)
Lemma feed_resolved cs :
  forall alg input arr st,
    feed cb cs (mkHash alg input false, arr) = Resolved st ->
    exists new,
      snd st = arr ++ new
      /\ map (fun r => (bf_path r, bf_name r)) new
         = if emits cs then [(path_dirname file, path_basename file)]
           else [].
Proof.
  induction cs as [|sd cs IH]; intros alg input arr st H; cbn [feed] in H.
  - injection H as <-. exists []. cbn. now rewrite app_nil_r.
  - rewrite chunk_open in H. cbn [and_then] in H.
    unfold emits. cbn [existsb]. fold (exit_zero sd). fold (emits cs).
    destruct (exit_zero sd); cbn [orb].
    + apply feed_finalized in H as [-> _]. cbn [snd]. eauto.
    + rewrite app_nil_r in H. now apply IH in H.
Qed.

End Hasher.

Lemma clean_cons (sd : StreamData) (rest : list StreamData) :
  clean (sd :: rest)
  = match rest with
    | [] => exit_zero sd
    | _ :: _ => clean rest
    end.
Proof. destruct rest; reflexivity. Qed.

(** An orderly stream either ends with the one chunk that reports exit
    code 0, or reports exit code 0 nowhere. *)
Lemma orderly_cases (cs : list StreamData) :
  orderly cs = true ->
  (clean cs = true
   /\ exists pre last,
       cs = pre ++ [last] /\ emits pre = false /\ exit_zero last = true)
  \/ (clean cs = false /\ emits cs = false).
Proof.
  induction cs as [|sd rest IH]; intro Hord.
  - right. split; reflexivity.
  - rewrite clean_cons. cbn [orderly] in Hord.
    destruct (exitCode sd) as [c|] eqn:Hcode.
    + destruct rest; [|discriminate].
      destruct (exit_zero sd) eqn:Hz.
      * left. split; [reflexivity|]. exists [], sd. auto.
      * right. split; [reflexivity|]. unfold emits. cbn.
        fold (exit_zero sd). now rewrite Hz.
    + assert (Hz : exit_zero sd = false) by (unfold exit_zero; now rewrite Hcode).
      destruct (IH Hord) as [(Hc & pre & last & Heq & Hpre & Hlast)|[Hc Hno]].
      * left. split.
        -- destruct rest; [destruct pre; discriminate | exact Hc].
        -- exists (sd :: pre), last. rewrite Heq. split; [reflexivity|].
           split; [|exact Hlast]. unfold emits in *. cbn.
           fold (exit_zero sd). now rewrite Hz.
      * right. split.
        -- destruct rest; [exact Hz | exact Hc].
        -- unfold emits in *. cbn. fold (exit_zero sd). now rewrite Hz.
Qed.

Section HashFiles.

Context {sub : SubProcess} {lib : Libraries}.
Variable this : Docker.

Lemma hashType_of_options (options : option HashOptions) :
  match options with
  | Some o =>
      if truthy_string (hashType o)
      then with_default HASH_ALGORITHM_SHA1 (hashType o)
      else HASH_ALGORITHM_SHA1
  | None => HASH_ALGORITHM_SHA1
  end = hashType_of options.
Proof. destruct options as [[[[|c s]|]]|]; reflexivity. Qed.

Lemma calcHash_file_unfold ht file arr log :
  hashSupported ht = true ->
  calcHash_file this ht file arr log
  = (match feed (calcHash_chunk file ht) (chunks_of this file)
                (mkHash ht [] false, arr) with
     | Rejected e => Rejected e
     | Resolved st =>
         match rejection_of this file with
         | Some e => Rejected e
         | None => Resolved (snd st)
         end
     end,
     log ++ [ExecuteAsStream "docker" (cat_args this file)]).
Proof.
  intro Hsup.
  unfold calcHash_file, bind, lift, ret, createHash, catBinarySafe,
    runAsStream, subProcess_executeAsStream.
  rewrite Hsup. cbn [with_default].
  fold (docker_run_args this "cat" [file]). fold (cat_args this file).
  fold (chunks_of this file). fold (rejection_of this file).
  destruct (feed _ _ _) as [st|e]; [|reflexivity].
  destruct (rejection_of this file); reflexivity.
Qed.

(** A file whose stream is orderly and whose promise resolves adds its
    record when the stream ended cleanly, and nothing otherwise. *)
Lemma calcHash_file_orderly ht file arr log :
  hashSupported ht = true ->
  orderly (chunks_of this file) = true ->
  rejection_of this file = None ->
  calcHash_file this ht file arr log
  = (Resolved (arr ++ (if clean (chunks_of this file)
                       then [record_of this ht file] else [])),
     log ++ [ExecuteAsStream "docker" (cat_args this file)]).
Proof.
  intros Hsup Hord Hres. rewrite calcHash_file_unfold by exact Hsup.
  rewrite Hres. unfold record_of.
  destruct (orderly_cases _ Hord)
    as [(-> & pre & last & -> & Hpre & Hlast)|[-> Hno]].
  - now rewrite feed_terminated.
  - rewrite feed_open by exact Hno. cbn. now rewrite app_nil_r.
Qed.

Lemma calcHash_loop_orderly ht files :
  hashSupported ht = true ->
  (forall f, In f files ->
             orderly (chunks_of this f) = true
             /\ rejection_of this f = None) ->
  forall arr log,
    for_of_acc (calcHash_file this ht) files arr log
    = (Resolved
         (arr ++ map (record_of this ht)
                     (filter (fun f => clean (chunks_of this f)) files)),
       log ++ map (fun f => ExecuteAsStream "docker" (cat_args this f))
                  files).
Proof.
  intros Hsup. induction files as [|f files IH]; intros Hall arr log.
  - cbn. unfold ret. now rewrite !app_nil_r.
  - cbn [for_of_acc filter map]. unfold bind.
    destruct (Hall f (or_introl eq_refl)) as [Hord Hres].
    rewrite calcHash_file_orderly by assumption.
    rewrite IH by (intros f' Hf'; apply Hall; now right).
    rewrite <- !app_assoc.
    destruct (clean (chunks_of this f)); reflexivity.
Qed.

Lemma calcHash_file_resolved ht file arr log arr' log' :
  calcHash_file this ht file arr log = (Resolved arr', log') ->
  exists new,
    arr' = arr ++ new
    /\ map (fun r => (bf_path r, bf_name r)) new
       = if emits (chunks_of this file)
         then [(path_dirname file, path_basename file)] else [].
Proof.
  destruct (hashSupported ht) eqn:Hsup.
  - rewrite calcHash_file_unfold by exact Hsup.
    destruct (feed _ _ _) as [st|e] eqn:Hfeed; [|discriminate].
    destruct (rejection_of this file); [discriminate|].
    intro H. injection H as <- _.
    now apply feed_resolved in Hfeed.
  - unfold calcHash_file, bind, lift, createHash. rewrite Hsup.
    discriminate.
Qed.

Lemma calcHash_loop_resolved ht files :
  forall arr log recs log',
    for_of_acc (calcHash_file this ht) files arr log = (Resolved recs, log')
    -> exists new,
      recs = arr ++ new
      /\ map (fun r => (bf_path r, bf_name r)) new
         = map (fun f => (path_dirname f, path_basename f))
               (filter (fun f => emits (chunks_of this f)) files).
Proof.
  induction files as [|f files IH]; intros arr log recs log' H;
    cbn [for_of_acc] in H.
  - injection H as <- _. exists []. now rewrite app_nil_r.
  - unfold bind in H.
    destruct (calcHash_file this ht f arr log) as [[arr1|e] l1] eqn:Hf;
      [|discriminate].
    apply calcHash_file_resolved in Hf as (new1 & -> & Hkeys1).
    apply IH in H as (new2 & -> & Hkeys2).
    exists (new1 ++ new2). rewrite app_assoc. split; [reflexivity|].
    rewrite map_app, Hkeys1, Hkeys2. cbn [filter].
    destruct (emits (chunks_of this f)); reflexivity.
Qed.

End HashFiles.

(** On the small image, a runner that adds warnings to [stderr] and a log
    that is not empty change nothing in the result. *)
Lemma findGlobs_deterministic_witness :
  fst (findGlobs (sub:=Demo.sub) (lib:=Demo.lib) Demo.image Demo.globs
         (Some ["/app/lib/**"%string]) None None None [])
  = fst (findGlobs (sub:=Demo.chatty_sub) (lib:=Demo.lib) Demo.image
           Demo.globs (Some ["/app/lib/**"%string]) None None None
           [ls_invocation Demo.image false "/"]).
Proof.
  apply (findGlobs_deterministic Demo.sub Demo.chatty_sub (lib:=Demo.lib)).
  intros params path. simpl execute. unfold Demo.chatty_exec.
  destruct (Demo.exec _ _); simpl; reflexivity.
Defined.

(** C3. Where the hash type is known, the streams are orderly and their
    promises resolve, [calcHashOfBinaryFiles] resolves with the records of
    exactly the files whose stream ended with exit code 0: a stream that
    ends in another state adds no record and raises nothing. Of two files
    of which the second ends with a non-zero exit code, only the first has
    a record. *)
Theorem calcHash_record_iff_clean_exit
        {sub : SubProcess} {lib : Libraries} (this : Docker)
        (files : list string) (options : option HashOptions)
        (log : list Invocation) :
  hashSupported (hashType_of options) = true ->
  (forall f, In f files ->
             orderly (chunks_of this f) = true
             /\ rejection_of this f = None) ->
  calcHashOfBinaryFiles this files options log
  = (Resolved (map (record_of this (hashType_of options))
                   (filter (fun f => clean (chunks_of this f)) files)),
     log ++ map (fun f => ExecuteAsStream "docker" (cat_args this f)) files)
  /\ (forall f1 f2 code,
         files = [f1; f2] ->
         exit_status (chunks_of this f1) = Some 0 ->
         exit_status (chunks_of this f2) = Some code ->
         code <> 0 ->
         fst (calcHashOfBinaryFiles this files options log)
         = Resolved [record_of this (hashType_of options) f1]).
Proof.
  intros Hsup Hall.
  assert (Hrun : calcHashOfBinaryFiles this files options log
                 = (Resolved
                      (map (record_of this (hashType_of options))
                           (filter (fun f => clean (chunks_of this f)) files)),
                    log ++ map (fun f =>
                                  ExecuteAsStream "docker" (cat_args this f))
                               files)).
  { unfold calcHashOfBinaryFiles. rewrite hashType_of_options.
    now rewrite calcHash_loop_orderly. }
  split; [exact Hrun|].
  intros f1 f2 code -> H1 H2 Hcode. rewrite Hrun. cbn [fst filter].
  unfold clean. rewrite H1, H2.
  destruct code as [|c|c]; [contradiction| |]; reflexivity.
Qed.

(** On the small image: [/app/node] is read to its end, the command for
    [/app/gone] exits with code 1. *)
Lemma calcHash_record_iff_clean_exit_witness :
  fst (calcHashOfBinaryFiles (sub:=Demo.sub) (lib:=Demo.lib) Demo.image
         ["/app/node"; "/app/gone"]%string None [])
  = Resolved [mkBinaryFileData "node" "/app" "sha1" "sha1:abcd"].
Proof.
  destruct (calcHash_record_iff_clean_exit
              (sub:=Demo.sub) (lib:=Demo.lib) Demo.image
              ["/app/node"; "/app/gone"]%string None [])
    as [_ Hscenario].
  - reflexivity.
  - intros f [<-|[<-|[]]]; split; vm_compute; reflexivity.
  - apply (Hscenario "/app/node"%string "/app/gone"%string 1).
    + reflexivity.
    + vm_compute. reflexivity.
    + vm_compute. reflexivity.
    + lia.
Defined.

(** C7. The records that [calcHashOfBinaryFiles] returns follow the order
    of the paths it was given: they are, one for one and in that order,
    the records of the files whose stream reported exit code 0. *)
Theorem calcHash_keeps_input_order
        {sub : SubProcess} {lib : Libraries} (this : Docker)
        (files : list string) (options : option HashOptions)
        (log log' : list Invocation) (recs : list BinaryFileData) :
  calcHashOfBinaryFiles this files options log = (Resolved recs, log') ->
  map (fun r => (bf_path r, bf_name r)) recs
  = map (fun f => (path_dirname f, path_basename f))
        (filter (fun f => emits (chunks_of this f)) files).
Proof.
  unfold calcHashOfBinaryFiles. intro H.
  apply calcHash_loop_resolved in H as (new & -> & Hkeys). exact Hkeys.
Qed.

(** On the small image, of [/app/flaky], [/app/gone] and [/app/node] the
    first and the last have a record, in that order. *)
Lemma calcHash_keeps_input_order_witness :
  map (fun r => (bf_path r, bf_name r))
      [mkBinaryFileData "flaky" "/app" "sha1" "sha1:ab";
       mkBinaryFileData "node" "/app" "sha1" "sha1:abcd"]
  = map (fun f => (Demo.dirname f, Demo.basename f))
        (filter (fun f => emits (chunks_of (sub:=Demo.sub) Demo.image f))
                ["/app/flaky"; "/app/gone"; "/app/node"]%string).
Proof.
  apply (calcHash_keeps_input_order (sub:=Demo.sub) (lib:=Demo.lib)
           Demo.image ["/app/flaky"; "/app/gone"; "/app/node"]%string None
           []
           [ExecuteAsStream "docker" (cat_args Demo.image "/app/flaky");
            ExecuteAsStream "docker" (cat_args Demo.image "/app/gone");
            ExecuteAsStream "docker" (cat_args Demo.image "/app/node")]).
  vm_compute. reflexivity.
Defined.

(** C9. A chunk flagged in error only keeps its own data out of the
    digest: when a later chunk of the same file is the first to report exit
    code 0, the record of the file is pushed, with the digest of the bytes
    of the other chunks. *)
Theorem calcHash_chunk_error_not_latched
        {sub : SubProcess} {lib : Libraries} (this : Docker)
        (file : string) (options : option HashOptions)
        (log : list Invocation)
        (cs1 cs2 : list StreamData) (bad last : StreamData) :
  hashSupported (hashType_of options) = true ->
  rejection_of this file = None ->
  chunks_of this file = cs1 ++ bad :: cs2 ++ [last] ->
  truthy_string (err bad) = true ->
  emits (cs1 ++ bad :: cs2) = false ->
  exitCode last = Some 0 ->
  fst (calcHashOfBinaryFiles this [file] options log)
  = Resolved
      [mkBinaryFileData (path_basename file) (path_dirname file)
         (hashType_of options)
         (hexDigest (hashType_of options)
                    (hashed_bytes (cs1 ++ cs2 ++ [last])))].
Proof.
  intros Hsup Hres Hchunks Hbad Hopen Hlast.
  unfold calcHashOfBinaryFiles. rewrite hashType_of_options.
  cbn [for_of_acc]. unfold bind.
  rewrite calcHash_file_unfold by exact Hsup.
  rewrite Hres, Hchunks.
  change (cs1 ++ bad :: cs2 ++ [last])
    with (cs1 ++ (bad :: cs2) ++ [last]).
  rewrite app_assoc, feed_terminated;
    [|exact Hopen | unfold exit_zero; now rewrite Hlast].
  cbn. do 4 f_equal.
  rewrite <- app_assoc, !hashed_bytes_app. f_equal.
  change (hashed_bytes (bad :: cs2))
    with (chunk_bytes bad ++ hashed_bytes cs2).
  assert (Hskip : chunk_bytes bad = []).
  { unfold chunk_bytes. rewrite Hbad. now destruct (data bad). }
  now rewrite Hskip.
Qed.

(** On the small image, the second chunk of [/app/flaky] is flagged with
    an input/output error: its bytes are left out and the record is
    pushed. *)
Lemma calcHash_chunk_error_not_latched_witness :
  fst (calcHashOfBinaryFiles (sub:=Demo.sub) (lib:=Demo.lib) Demo.image
         ["/app/flaky"%string] None [])
  = Resolved [mkBinaryFileData "flaky" "/app" "sha1" "sha1:ab"].
Proof.
  apply (calcHash_chunk_error_not_latched
           (sub:=Demo.sub) (lib:=Demo.lib) Demo.image "/app/flaky"%string
           None []
           [mkStreamData (Demo.bytes "a") None None]
           [mkStreamData (Demo.bytes "b") None None]
           (mkStreamData (Demo.bytes "??") (Some "input/output error"%string)
                         None)
           (mkStreamData None None (Some 0))).
  - reflexivity.
  - reflexivity.
  - vm_compute. reflexivity.
  - reflexivity.
  - reflexivity.
  - reflexivity.
Defined.


(** * Further properties of the class *)

(** ** Connection options *)


(** ** The commands of a scan *)

Lemma findGlobs_root_issues_listings
      {sub : SubProcess} {lib : Libraries} (this : Docker)
      (P : Invocation -> Prop) path recursive excl :
  (forall r p, P (ls_invocation this r p)) ->
  issues P (findGlobs_root this path recursive excl).
Proof.
  intro HP. unfold findGlobs_root.
  destruct (recursive && (path =? "/")%string).
  - apply issues_bind; [apply lsSafe_issues; apply HP|].
    intro out. apply issues_bind; [apply issues_lift|].
    intro root. apply issues_bind.
    + apply issues_for_of. intro d. unfold findGlobs_subdir.
      destruct (existsb _ excl); [apply issues_ret|].
      apply issues_bind; [apply lsSafe_issues; apply HP|].
      intro o. apply issues_bind; [apply issues_lift|].
      intro t. apply issues_ret.
    + intro ds. apply issues_ret.
  - apply issues_bind; [apply lsSafe_issues; apply HP|].
    intro out. apply issues_lift.
Qed.

(** X2. Whatever its arguments and however it ends, [findGlobs] runs
    nothing but [ls -1ap] and [ls -1apR]: each in a container of the
    target image that is removed afterwards, has no entrypoint and no
    network, after the connection options of the object. *)
Theorem findGlobs_issues_only_listings
        {sub : SubProcess} {lib : Libraries} (this : Docker)
        (globs : Globs) (exclusionGlobs : option (list string))
        (path : option string) (recursive : option bool)
        (excludeRootDirectories : option (list string))
        (log : list Invocation) :
  exists issued,
    snd (findGlobs this globs exclusionGlobs path recursive
                   excludeRootDirectories log) = log ++ issued
    /\ forall inv,
        In inv issued ->
        exists params p,
          (params = "-1ap"%string \/ params = "-1apR"%string)
          /\ inv = Execute "docker"
                     (optionsList this
                      ++ ["run"; "--rm"; "--entrypoint"; empty_entrypoint;
                          "--network"; "none"; targetImage this;
                          "ls"; params; p]).
Proof.
  set (P := fun inv =>
              exists params p,
                (params = "-1ap"%string \/ params = "-1apR"%string)
                /\ inv = Execute "docker"
                           (optionsList this
                            ++ ["run"; "--rm"; "--entrypoint";
                                empty_entrypoint; "--network"; "none";
                                targetImage this; "ls"; params; p])).
  assert (Hissues : issues P (findGlobs this globs exclusionGlobs path
                                 recursive excludeRootDirectories)).
  { unfold findGlobs. apply issues_bind.
    - apply findGlobs_root_issues_listings. intros r p.
      exists (if r then "-1apR" else "-1ap")%string, p.
      split; [destruct r; auto | reflexivity].
    - intro root. apply issues_ret. }
  destruct (Hissues log) as (issued & Hlog & Hall).
  exists issued. split; [exact Hlog|]. now apply Forall_forall.
Qed.

(** X3. Away from a recursive scan of ["/"], [findGlobs] issues one
    command, the listing of the path it was given, and
    [excludeRootDirectories] has no effect on what it returns. *)
Theorem findGlobs_scoped_single_listing
        {sub : SubProcess} {lib : Libraries} (this : Docker)
        (globs : Globs) (exclusionGlobs : option (list string))
        (path : option string) (recursive : option bool)
        (excludeRootDirectories : option (list string))
        (log : list Invocation) :
  with_default true recursive && (with_default "/" path =? "/")%string
  = false ->
  snd (findGlobs this globs exclusionGlobs path recursive
                 excludeRootDirectories log)
  = log ++ [ls_invocation this (with_default true recursive)
                          (with_default "/"%string path)]
  /\ forall others,
      findGlobs this globs exclusionGlobs path recursive others log
      = findGlobs this globs exclusionGlobs path recursive
                  excludeRootDirectories log.
Proof.
  intro Hscope. unfold findGlobs, findGlobs_root. rewrite Hscope.
  split; [|reflexivity].
  unfold bind, lift, ret. rewrite lsSafe_unfold, runSafe_unfold.
  cbn [with_default]. unfold ls_invocation.
  destruct (execute _ _) as [out|error].
  - destruct (parseLsOutput (stdout out)); reflexivity.
  - destruct (tolerated _ error); [|reflexivity].
    destruct (parseLsOutput _); reflexivity.
Qed.

(** On the small image, a recursive scan of [/app] lists [/app] and
    nothing else. *)
Lemma findGlobs_scoped_single_listing_witness :
  snd (findGlobs (sub:=Demo.sub) (lib:=Demo.lib) Demo.image Demo.globs None
         (Some "/app"%string) None None [])
  = [ls_invocation Demo.image true "/app"].
Proof.
  apply (findGlobs_scoped_single_listing (sub:=Demo.sub) (lib:=Demo.lib)
           Demo.image Demo.globs None (Some "/app"%string) None None []).
  reflexivity.
Defined.

(** X4. The first listing of [findGlobs] is that of the path it was
    given, recursive unless the path is ["/"]. When it fails with a
    [stderr] that holds none of the patterns of [lsSafe], [findGlobs]
    rejects with that failure and has issued nothing else. *)
Theorem findGlobs_first_listing_failure
        {sub : SubProcess} {lib : Libraries} (this : Docker)
        (globs : Globs) (exclusionGlobs : option (list string))
        (path : option string) (recursive : option bool)
        (excludeRootDirectories : option (list string))
        (log : list Invocation) (error : JsError) :
  let p := with_default "/"%string path in
  let r := with_default true recursive && negb (p =? "/")%string in
  execute "docker"
    (docker_run_args this "ls" [if r then "-1apR" else "-1ap"; p]%string)
  = Rejected error ->
  (forall s pat,
      error_stderr error = JsString s ->
      In pat ["No such file"; "file not found"; "Permission denied"]%string ->
      ~ contains s pat) ->
  findGlobs this globs exclusionGlobs path recursive excludeRootDirectories
            log
  = (Rejected error, log ++ [ls_invocation this r p]).
Proof.
  intros p r Hfail Hnone.
  assert (Htol : tolerated
                   ["No such file"; "file not found"; "Permission denied"]
                   error = false).
  { destruct (tolerated _ error) eqn:Htol; [|reflexivity].
    apply tolerated_true in Htol as (s & pat & Hs & Hpat & Hin).
    now destruct (Hnone s pat Hs Hpat). }
  unfold findGlobs, findGlobs_root. fold p.
  destruct (with_default true recursive) eqn:Hrec; cbn [andb] in *.
  - destruct (p =? "/")%string eqn:Hp; subst r; cbn [negb] in *.
    + apply String.eqb_eq in Hp. rewrite Hp in *.
      unfold bind. rewrite lsSafe_unfold, runSafe_unfold.
      cbn [with_default]. rewrite Hfail, Htol. reflexivity.
    + unfold bind. rewrite lsSafe_unfold, runSafe_unfold.
      cbn [with_default]. rewrite Hfail, Htol. reflexivity.
  - subst r. unfold bind. rewrite lsSafe_unfold, runSafe_unfold.
    cbn [with_default]. rewrite Hfail, Htol. reflexivity.
Qed.

(** On a host whose daemon cannot be reached, the default scan rejects
    after the listing of ["/"]. *)
Lemma findGlobs_first_listing_failure_witness :
  findGlobs (sub:=Demo.unreachable_sub) (lib:=Demo.lib) Demo.image
            Demo.globs None None None None []
  = (Rejected (mkError (JsString "")
                 (JsString "Cannot connect to the Docker daemon at tcp://dind")
                 JsUndefined),
     [ls_invocation Demo.image false "/"]).
Proof.
  apply (findGlobs_first_listing_failure
           (sub:=Demo.unreachable_sub) (lib:=Demo.lib) Demo.image Demo.globs
           None None None None []).
  - reflexivity.
  - intros s pat Hs Hpat Hin. apply indexOf_contains in Hin.
    injection Hs as <-. simpl in Hpat.
    destruct Hpat as [<-|[<-|[<-|[]]]]; vm_compute in Hin; discriminate.
Defined.

(** ** The tree of a scan from the root *)

Section RootScan.

Context {sub : SubProcess} {lib : Libraries}.

Variable this : Docker.

Lemma findGlobs_subdir_log excl subdir log :
  snd (findGlobs_subdir this excl subdir log)
  = log ++ (if existsb (String.eqb (dir_name subdir)) excl then []
            else [ls_invocation this true ("/" ++ dir_name subdir)]).
Proof.
  unfold findGlobs_subdir. destruct (existsb _ excl).
  - cbn. now rewrite app_nil_r.
  - unfold bind, lift, ret. rewrite lsSafe_unfold, runSafe_unfold.
    cbn [with_default]. unfold ls_invocation.
    destruct (execute _ _) as [out|error].
    + destruct (parseLsOutput (stdout out)); reflexivity.
    + destruct (tolerated _ error); [|reflexivity].
      destruct (parseLsOutput _); reflexivity.
Qed.

Lemma subdirs_loop_log excl ds :
  forall log ds' log',
    for_of (findGlobs_subdir this excl) ds log = (Resolved ds', log') ->
    log' = log
           ++ map (fun d => ls_invocation this true ("/" ++ dir_name d))
                  (filter (fun d =>
                             negb (existsb (String.eqb (dir_name d)) excl))
                          ds).
Proof.
  induction ds as [|d ds IH]; intros log ds' log' H; cbn [for_of] in H.
  - injection H as _ <-. cbn. now rewrite app_nil_r.
  - unfold bind in H. pose proof (findGlobs_subdir_log excl d log) as Hd.
    destruct (findGlobs_subdir this excl d log) as [[d'|e] l1];
      [|discriminate].
    cbn [snd] in Hd. subst l1.
    destruct (for_of _ ds _) as [[ds1|e] l2] eqn:Hds; [|discriminate].
    injection H as _ <-. apply IH in Hds. rewrite Hds. cbn [filter].
    destruct (existsb _ excl); cbn [negb map app];
      now rewrite <- app_assoc.
Qed.

Lemma findGlobs_subdir_excluded excl subdir log :
  existsb (String.eqb (dir_name subdir)) excl = true ->
  findGlobs_subdir this excl subdir log = (Resolved subdir, log).
Proof. intro Hex. unfold findGlobs_subdir. now rewrite Hex. Qed.

(** A resolved scan from the root listed the root, parsed the listing and
    went through its sub-directories. *)
Lemma findGlobs_root_scan excl log root' log' :
  findGlobs_root this "/" true excl log = (Resolved root', log') ->
  exists out0 root0 ds',
    fst (lsSafe this "/" (Some false) []) = Resolved out0
    /\ parseLsOutput (stdout out0) = Resolved root0
    /\ for_of (findGlobs_subdir this excl) (subDirs root0)
              (log ++ [ls_invocation this false "/"])
       = (Resolved ds', log')
    /\ root' = mkDirectory (dir_name root0) ds' (files root0).
Proof.
  unfold findGlobs_root. cbn [andb String.eqb Ascii.eqb Bool.eqb].
  unfold bind at 1. intro H.
  destruct (lsSafe this "/" (Some false) log) as [[out0|e] l0] eqn:Hls;
    [|discriminate].
  assert (Hl0 : l0 = log ++ [ls_invocation this false "/"]).
  { clear - Hls. rewrite lsSafe_unfold, runSafe_unfold in Hls.
    injection Hls as _ <-. reflexivity. }
  subst l0. unfold bind at 1, lift at 1 in H.
  destruct (parseLsOutput (stdout out0)) as [root0|e] eqn:Hparse;
    [|discriminate].
  unfold bind, ret in H.
  destruct (for_of _ (subDirs root0) _) as [[ds'|e] l1] eqn:Hfor;
    [|discriminate].
  injection H as <- <-. exists out0, root0, ds'.
  split; [|auto].
  rewrite (lsSafe_any_log this _ _ [] log), Hls. reflexivity.
Qed.

End RootScan.

Lemma findGlobs_resolved_root
      {sub : SubProcess} {lib : Libraries} (this : Docker)
      globs exclusionGlobs path recursive excludeRootDirectories
      log r log' :
  with_default "/"%string path = "/"%string ->
  with_default true recursive = true ->
  findGlobs this globs exclusionGlobs path recursive excludeRootDirectories
            log = (Resolved r, log') ->
  exists root',
    findGlobs_root this "/" true
                   (with_default SystemDirectories excludeRootDirectories)
                   log = (Resolved root', log').
Proof.
  intros Hpath Hrec Hrun.
  destruct (findGlobs_resolved _ _ _ _ _ _ _ _ _ Hrun) as (root & Hroot & _).
  rewrite Hpath, Hrec in Hroot. eauto.
Qed.

(** X5. A recursive scan of ["/"] that resolves has issued the listing of
    ["/"] and then one recursive listing per top-level directory of that
    listing whose name is not excluded, in the order of the listing, and
    nothing else. *)
Theorem findGlobs_root_scan_commands
        {sub : SubProcess} {lib : Libraries} (this : Docker)
        (globs : Globs) (exclusionGlobs : option (list string))
        (path : option string) (recursive : option bool)
        (excludeRootDirectories : option (list string))
        (log log' : list Invocation) (r : FindGlobsResult) :
  with_default "/"%string path = "/"%string ->
  with_default true recursive = true ->
  findGlobs this globs exclusionGlobs path recursive excludeRootDirectories
            log = (Resolved r, log') ->
  exists out0 root0,
    fst (lsSafe this "/" (Some false) []) = Resolved out0
    /\ parseLsOutput (stdout out0) = Resolved root0
    /\ log'
       = log
         ++ ls_invocation this false "/"
            :: map (fun d => ls_invocation this true ("/" ++ dir_name d))
                   (filter
                      (fun d =>
                         negb (existsb
                                 (String.eqb (dir_name d))
                                 (with_default SystemDirectories
                                               excludeRootDirectories)))
                      (subDirs root0)).
Proof.
  intros Hpath Hrec Hrun.
  destruct (findGlobs_resolved_root _ _ _ _ _ _ _ _ _ Hpath Hrec Hrun)
    as (root' & Hroot).
  apply findGlobs_root_scan in Hroot
    as (out0 & root0 & ds' & Hls & Hparse & Hfor & _).
  exists out0, root0. split; [exact Hls|]. split; [exact Hparse|].
  apply subdirs_loop_log in Hfor. rewrite Hfor, <- app_assoc. reflexivity.
Qed.

(** On the small image, the default scan lists ["/"] and [/app]. *)
Lemma findGlobs_root_scan_commands_witness :
  exists out0 root0,
    fst (lsSafe (sub:=Demo.sub) Demo.image "/" (Some false) [])
    = Resolved out0
    /\ Demo.parse (stdout out0) = Resolved root0
    /\ [ls_invocation Demo.image false "/";
        ls_invocation Demo.image true "/app"]
       = []
         ++ ls_invocation Demo.image false "/"
            :: map (fun d => ls_invocation Demo.image true
                                           ("/" ++ dir_name d))
                   (filter
                      (fun d =>
                         negb (existsb (String.eqb (dir_name d))
                                       SystemDirectories))
                      (subDirs root0)).
Proof.
  apply (findGlobs_root_scan_commands (sub:=Demo.sub) (lib:=Demo.lib)
           Demo.image Demo.globs None None None None [] _
           (mkResult ["/app/package.json"; "/app/lib/package.json"]%string
                     ["/app/node"; "/app/lib/libz.so"]%string)).
  - reflexivity.
  - reflexivity.
  - vm_compute. reflexivity.
Defined.

(** X6. In a recursive scan of ["/"], the tree that is classified keeps
    the files of the listing of ["/"] as they were parsed, keeps its
    top-level directories by name and in order, and keeps an excluded
    directory exactly as the listing of ["/"] gave it. *)
Theorem findGlobs_root_scan_keeps_root
        {sub : SubProcess} {lib : Libraries} (this : Docker)
        (globs : Globs) (exclusionGlobs : option (list string))
        (path : option string) (recursive : option bool)
        (excludeRootDirectories : option (list string))
        (log log' : list Invocation) (r : FindGlobsResult) :
  with_default "/"%string path = "/"%string ->
  with_default true recursive = true ->
  findGlobs this globs exclusionGlobs path recursive excludeRootDirectories
            log = (Resolved r, log') ->
  exists out0 root0 root',
    fst (lsSafe this "/" (Some false) []) = Resolved out0
    /\ parseLsOutput (stdout out0) = Resolved root0
    /\ findGlobs_root this "/" true
                      (with_default SystemDirectories excludeRootDirectories)
                      log = (Resolved root', log')
    /\ files root' = files root0
    /\ Forall2
         (fun d d' =>
            dir_name d' = dir_name d
            /\ (existsb (String.eqb (dir_name d))
                        (with_default SystemDirectories
                                      excludeRootDirectories) = true ->
                d' = d))
         (subDirs root0) (subDirs root').
Proof.
  intros Hpath Hrec Hrun.
  destruct (findGlobs_resolved_root _ _ _ _ _ _ _ _ _ Hpath Hrec Hrun)
    as (root' & Hroot).
  pose proof Hroot as Hscan.
  apply findGlobs_root_scan in Hscan
    as (out0 & root0 & ds' & Hls & Hparse & Hfor & ->).
  exists out0, root0, (mkDirectory (dir_name root0) ds' (files root0)).
  repeat (split; [assumption || reflexivity|]).
  cbn [subDirs]. apply for_of_resolved in Hfor.
  clear - Hfor.
  induction Hfor as [|d d' ds ds'' (l & l' & Hd) _ IH];
    constructor; [|exact IH].
  split.
  - now apply findGlobs_subdir_resolved in Hd as [Hname _].
  - intro Hex. rewrite findGlobs_subdir_excluded in Hd by exact Hex.
    now injection Hd as <- _.
Qed.

(** On the small image, [README] stays at ["/"] and [proc] stays empty. *)
Lemma findGlobs_root_scan_keeps_root_witness :
  exists out0 root0 root',
    fst (lsSafe (sub:=Demo.sub) Demo.image "/" (Some false) [])
    = Resolved out0
    /\ Demo.parse (stdout out0) = Resolved root0
    /\ findGlobs_root (sub:=Demo.sub) (lib:=Demo.lib) Demo.image "/" true
                      SystemDirectories []
       = (Resolved root',
          [ls_invocation Demo.image false "/";
           ls_invocation Demo.image true "/app"])
    /\ files root' = files root0
    /\ Forall2
         (fun d d' =>
            dir_name d' = dir_name d
            /\ (existsb (String.eqb (dir_name d)) SystemDirectories = true ->
                d' = d))
         (subDirs root0) (subDirs root').
Proof.
  apply (findGlobs_root_scan_keeps_root (sub:=Demo.sub) (lib:=Demo.lib)
           Demo.image Demo.globs None None None None [] _
           (mkResult ["/app/package.json"; "/app/lib/package.json"]%string
                     ["/app/node"; "/app/lib/libz.so"]%string)).
  - reflexivity.
  - reflexivity.
  - vm_compute. reflexivity.
Defined.

(** X7. In a recursive scan of ["/"], one top-level directory that is not
    excluded and whose recursive listing fails with a [stderr] that holds
    none of the patterns of [lsSafe] keeps the whole scan from
    resolving. *)
Theorem findGlobs_root_scan_aborts
        {sub : SubProcess} {lib : Libraries} (this : Docker)
        (globs : Globs) (exclusionGlobs : option (list string))
        (path : option string) (recursive : option bool)
        (excludeRootDirectories : option (list string))
        (log : list Invocation)
        (out0 : CmdOutput) (root0 subdir : DiscoveredDirectory)
        (error : JsError) :
  with_default "/"%string path = "/"%string ->
  with_default true recursive = true ->
  fst (lsSafe this "/" (Some false) []) = Resolved out0 ->
  parseLsOutput (stdout out0) = Resolved root0 ->
  In subdir (subDirs root0) ->
  existsb (String.eqb (dir_name subdir))
          (with_default SystemDirectories excludeRootDirectories) = false ->
  execute "docker"
    (docker_run_args this "ls" ["-1apR"; "/" ++ dir_name subdir]%string)
  = Rejected error ->
  (forall s pat,
      error_stderr error = JsString s ->
      In pat ["No such file"; "file not found"; "Permission denied"]%string ->
      ~ contains s pat) ->
  exists e,
    fst (findGlobs this globs exclusionGlobs path recursive
                   excludeRootDirectories log) = Rejected e.
Proof.
  intros Hpath Hrec Hls Hparse Hin Hex Hfail Hnone.
  destruct (findGlobs this globs exclusionGlobs path recursive
                      excludeRootDirectories log) as [[r|e] log'] eqn:Hrun;
    [exfalso | now exists e].
  destruct (findGlobs_resolved_root _ _ _ _ _ _ _ _ _ Hpath Hrec Hrun)
    as (root' & Hroot).
  apply findGlobs_root_scan in Hroot
    as (out0' & root0' & ds' & Hls' & Hparse' & Hfor & _).
  rewrite Hls in Hls'. injection Hls' as <-.
  rewrite Hparse in Hparse'. injection Hparse' as <-.
  apply for_of_resolved in Hfor.
  assert (Hsub : exists d' l l',
             findGlobs_subdir
               this (with_default SystemDirectories excludeRootDirectories)
               subdir l = (Resolved d', l')).
  { clear - Hfor Hin. induction Hfor as [|x y xs ys Hxy _ IH].
    - destruct Hin.
    - destruct Hin as [->|Hin]; [|auto].
      destruct Hxy as (l & l' & Hxy). eauto. }
  destruct Hsub as (d' & l & l' & Hsub).
  apply findGlobs_subdir_resolved in Hsub as [_ Hlisted].
  destruct (Hlisted Hex) as (out & listing & Hout & _).
  rewrite lsSafe_unfold, runSafe_unfold in Hout. cbn [with_default fst] in Hout.
  rewrite Hfail in Hout.
  destruct (tolerated _ error) eqn:Htol; [|discriminate].
  apply tolerated_true in Htol as (s & pat & Hs & Hpat & Hcont).
  now destruct (Hnone s pat Hs Hpat).
Qed.

(** On the small image with nothing excluded, [/proc] cannot be listed
    and the scan rejects. *)
Lemma findGlobs_root_scan_aborts_witness :
  exists e,
    fst (findGlobs (sub:=Demo.sub) (lib:=Demo.lib) Demo.image Demo.globs
           None None None (Some []) []) = Rejected e.
Proof.
  apply (findGlobs_root_scan_aborts (sub:=Demo.sub) (lib:=Demo.lib)
           Demo.image Demo.globs None None None (Some []) []
           (mkOutput (JsString Demo.root_listing) (JsString ""))
           (mkDirectory "/"
              [mkDirectory "app" [] []; mkDirectory "proc" [] []]
              [mkFile "README" "/"])
           (mkDirectory "proc" [] [])
           (mkError (JsString "") (JsString "sh: unknown operand")
                    JsUndefined)).
  - reflexivity.
  - reflexivity.
  - vm_compute. reflexivity.
  - vm_compute. reflexivity.
  - simpl. right. left. reflexivity.
  - reflexivity.
  - vm_compute. reflexivity.
  - intros s pat Hs Hpat Hin. apply indexOf_contains in Hin.
    injection Hs as <-. simpl in Hpat.
    destruct Hpat as [<-|[<-|[<-|[]]]]; vm_compute in Hin; discriminate.
Defined.

(** ** What the result lists hold *)

Lemma filter_none {A} (f : A -> bool) (l : list A) :
  (forall x, In x l -> f x = false) -> filter f l = [].
Proof.
  induction l as [|x l IH]; intro H; cbn; [reflexivity|].
  rewrite (H x) by now left. apply IH. intros y Hy. apply H. now right.
Qed.

Lemma filter_disjoint_length {A} (f g : A -> bool) (l : list A) :
  (forall x, f x = true -> g x = false) ->
  (List.length (filter f l) + List.length (filter g l)
   <= List.length l)%nat.
Proof.
  intro H. induction l as [|x l IH]; cbn; [lia|].
  destruct (f x) eqn:Hf.
  - rewrite (H x Hf). cbn. lia.
  - destruct (g x); cbn; lia.
Qed.

Lemma filter_twice {A} (f g : A -> bool) (l : list A) :
  filter g (filter f l) = filter (fun x => f x && g x) l.
Proof.
  induction l as [|x l IH]; cbn; [reflexivity|].
  destruct (f x); cbn; [destruct (g x)|]; now rewrite IH.
Qed.

Lemma excluded_app {lib : Libraries} (e1 e2 : list string) (p : string) :
  excluded (e1 ++ e2) p = excluded e1 p || excluded e2 p.
Proof. apply existsb_app. Qed.

Lemma checkMatch_false {lib : Libraries} (p : string) (gs : list string) :
  checkMatch p (Some gs) = false ->
  p <> ""%string -> forall g, In g gs -> minimatch p g = false.
Proof.
  intros H Hp g Hg. destruct (minimatch p g) eqn:Hm; [|reflexivity].
  assert (checkMatch p (Some gs) = true) by (apply checkMatch_true; eauto).
  congruence.
Qed.

(** X8. The two lists of a resolved [findGlobs] are exact. A path is on
    [manifestFiles] when and only when it is the non-empty full path of a
    walked entry, matches no exclusion glob and matches a manifest glob;
    it is on [binaryFiles] when and only when it is such a path, matches
    no exclusion glob and no manifest glob, and matches a binary glob. *)
Theorem findGlobs_lists_exact
        {sub : SubProcess} {lib : Libraries} (this : Docker)
        (globs : Globs) (exclusionGlobs : option (list string))
        (path : option string) (recursive : option bool)
        (excludeRootDirectories : option (list string))
        (log log' : list Invocation) (r : FindGlobsResult) :
  findGlobs this globs exclusionGlobs path recursive excludeRootDirectories
            log = (Resolved r, log') ->
  exists root,
    findGlobs_root this (with_default "/"%string path)
                   (with_default true recursive)
                   (with_default SystemDirectories excludeRootDirectories)
                   log = (Resolved root, log')
    /\ forall p,
        (In p (manifestFiles r) <->
         p <> ""%string
         /\ (exists f, In f (allFiles root) /\ fullPath f = p)
         /\ (forall g, In g (with_default [] exclusionGlobs) ->
                       minimatch p g = false)
         /\ exists g, In g (manifestGlobs globs) /\ minimatch p g = true)
        /\ (In p (binaryFiles r) <->
            p <> ""%string
            /\ (exists f, In f (allFiles root) /\ fullPath f = p)
            /\ (forall g, In g (with_default [] exclusionGlobs) ->
                          minimatch p g = false)
            /\ (forall g, In g (manifestGlobs globs) ->
                          minimatch p g = false)
            /\ exists g, In g (binaryGlobs globs) /\ minimatch p g = true).
Proof.
  intro Hrun.
  destruct (findGlobs_resolved _ _ _ _ _ _ _ _ _ Hrun) as (root & Hroot & ->).
  exists root. split; [exact Hroot|]. intro p.
  cbn [manifestFiles binaryFiles]. rewrite !filter_In, !in_map_iff.
  unfold is_manifest, is_binary.
  assert (Hexcl : excluded (with_default [] exclusionGlobs) p = false <->
                  forall g, In g (with_default [] exclusionGlobs) ->
                            minimatch p g = false).
  { unfold excluded. split.
    - intros H g Hg. destruct (minimatch p g) eqn:Hm; [|reflexivity].
      assert (existsb (fun g => minimatch p g)
                      (with_default [] exclusionGlobs) = true)
        by (apply existsb_exists; eauto).
      congruence.
    - intro H. destruct (existsb _ _) eqn:Hex; [|reflexivity].
      apply existsb_exists in Hex as (g & Hg & Hm).
      rewrite (H g Hg) in Hm. discriminate. }
  split; split.
  - intros [Hwalk Htest]. apply andb_prop in Htest as [Hex Hman].
    apply negb_true_iff in Hex. apply checkMatch_true in Hman as [Hp Hg].
    repeat split; try assumption.
    + destruct Hwalk as (f & Hf & Hin). eauto.
    + now apply Hexcl.
  - intros (Hp & (f & Hf & Hpath) & Hex & Hg). split; [eauto|].
    apply andb_true_intro. split.
    + apply negb_true_iff. now apply Hexcl.
    + apply checkMatch_true. auto.
  - intros [Hwalk Htest]. apply andb_prop in Htest as [Htest Hbin].
    apply andb_prop in Htest as [Hex Hman].
    apply negb_true_iff in Hex, Hman.
    apply checkMatch_true in Hbin as [Hp Hg].
    repeat split; try assumption.
    + destruct Hwalk as (f & Hf & Hin). eauto.
    + now apply Hexcl.
    + now apply checkMatch_false.
  - intros (Hp & (f & Hf & Hpath) & Hex & Hman & Hg). split; [eauto|].
    apply andb_true_intro. split; [apply andb_true_intro; split|].
    + apply negb_true_iff. now apply Hexcl.
    + apply negb_true_iff.
      destruct (checkMatch p (Some (manifestGlobs globs))) eqn:Hc;
        [|reflexivity].
      apply checkMatch_true in Hc as (_ & g & Hgin & Hm).
      rewrite (Hman g Hgin) in Hm. discriminate.
    + apply checkMatch_true. auto.
Qed.

(** On the small image, [/app/node] is on [binaryFiles] and [/README],
    which matches no glob, is on neither list. *)
Lemma findGlobs_lists_exact_witness :
  In "/app/node"%string ["/app/node"%string]
  /\ ~ In "/README"%string ["/app/package.json"%string].
Proof.
  destruct (findGlobs_lists_exact (sub:=Demo.sub) (lib:=Demo.lib)
              Demo.image Demo.globs (Some ["/app/lib/**"%string])
              None None None []
              [ls_invocation Demo.image false "/";
               ls_invocation Demo.image true "/app"]
              (mkResult ["/app/package.json"%string] ["/app/node"%string]))
    as (root & Hroot & Hexact).
  - vm_compute. reflexivity.
  - split.
    + simpl. left. reflexivity.
    + intro Hin. apply (Hexact "/README"%string) in Hin
        as (_ & _ & _ & g & Hg & Hm).
      simpl in Hg. destruct Hg as [<-|[]]. vm_compute in Hm. discriminate.
Defined.

(** X9. [findGlobs] records a walked entry at most once: the two lists
    together are no longer than the walk. *)
Theorem findGlobs_records_at_most_once
        {sub : SubProcess} {lib : Libraries} (this : Docker)
        (globs : Globs) (exclusionGlobs : option (list string))
        (path : option string) (recursive : option bool)
        (excludeRootDirectories : option (list string))
        (log log' : list Invocation) (r : FindGlobsResult) :
  findGlobs this globs exclusionGlobs path recursive excludeRootDirectories
            log = (Resolved r, log') ->
  exists root,
    findGlobs_root this (with_default "/"%string path)
                   (with_default true recursive)
                   (with_default SystemDirectories excludeRootDirectories)
                   log = (Resolved root, log')
    /\ (List.length (manifestFiles r) + List.length (binaryFiles r)
        <= List.length (allFiles root))%nat.
Proof.
  intro Hrun.
  destruct (findGlobs_resolved _ _ _ _ _ _ _ _ _ Hrun) as (root & Hroot & ->).
  exists root. split; [exact Hroot|]. cbn [manifestFiles binaryFiles].
  rewrite <- (length_map fullPath (allFiles root)).
  apply filter_disjoint_length. intros p Hm. unfold is_manifest in Hm.
  unfold is_binary. apply andb_prop in Hm as [-> ->]. reflexivity.
Qed.

(** On the small image the walk has five entries, four of them
    recorded. *)
Lemma findGlobs_records_at_most_once_witness :
  exists root,
    findGlobs_root (sub:=Demo.sub) (lib:=Demo.lib) Demo.image "/" true
                   SystemDirectories []
    = (Resolved root,
       [ls_invocation Demo.image false "/";
        ls_invocation Demo.image true "/app"])
    /\ (2 + 2 <= List.length (allFiles root))%nat.
Proof.
  apply (findGlobs_records_at_most_once (sub:=Demo.sub) (lib:=Demo.lib)
           Demo.image Demo.globs None None None None [] _
           (mkResult ["/app/package.json"; "/app/lib/package.json"]%string
                     ["/app/node"; "/app/lib/libz.so"]%string)).
  vm_compute. reflexivity.
Defined.

(** X10. With no manifest glob and no binary glob, a resolved [findGlobs]
    returns two empty lists. *)
Theorem findGlobs_without_globs
        {sub : SubProcess} {lib : Libraries} (this : Docker)
        (globs : Globs) (exclusionGlobs : option (list string))
        (path : option string) (recursive : option bool)
        (excludeRootDirectories : option (list string))
        (log log' : list Invocation) (r : FindGlobsResult) :
  manifestGlobs globs = [] ->
  binaryGlobs globs = [] ->
  findGlobs this globs exclusionGlobs path recursive excludeRootDirectories
            log = (Resolved r, log') ->
  r = mkResult [] [].
Proof.
  intros Hm Hb Hrun.
  destruct (findGlobs_resolved _ _ _ _ _ _ _ _ _ Hrun) as (root & _ & ->).
  f_equal; apply filter_none; intros p _; unfold is_manifest, is_binary;
    rewrite ?Hm, ?Hb; unfold checkMatch;
    destruct (p =? "")%string; cbn; now rewrite ?andb_false_r.
Qed.

(** On the small image, the scan without globs lists the image and
    returns nothing. *)
Lemma findGlobs_without_globs_witness :
  fst (findGlobs (sub:=Demo.sub) (lib:=Demo.lib) Demo.image (mkGlobs [] [])
         None None None None [])
  = Resolved (mkResult [] []).
Proof.
  destruct (findGlobs (sub:=Demo.sub) (lib:=Demo.lib) Demo.image
              (mkGlobs [] []) None None None None [])
    as [[r|e] log'] eqn:Hrun.
  - cbn [fst]. f_equal.
    apply (findGlobs_without_globs (sub:=Demo.sub) (lib:=Demo.lib)
             Demo.image (mkGlobs [] []) None None None None [] log' r).
    + reflexivity.
    + reflexivity.
    + exact Hrun.
  - vm_compute in Hrun. discriminate.
Defined.

(** X11. Exclusion globs compose with a later filter: scanning with the
    exclusion globs [more] added gives the lists of the scan without
    them, less the paths that match one of [more], in the same order. *)
Theorem findGlobs_more_exclusions
        {sub : SubProcess} {lib : Libraries} (this : Docker)
        (globs : Globs) (exclusionGlobs more : list string)
        (path : option string) (recursive : option bool)
        (excludeRootDirectories : option (list string))
        (log log1 log2 : list Invocation) (r1 r2 : FindGlobsResult) :
  findGlobs this globs (Some exclusionGlobs) path recursive
            excludeRootDirectories log = (Resolved r1, log1) ->
  findGlobs this globs (Some (exclusionGlobs ++ more)) path recursive
            excludeRootDirectories log = (Resolved r2, log2) ->
  manifestFiles r2
  = filter (fun p => negb (excluded more p)) (manifestFiles r1)
  /\ binaryFiles r2
     = filter (fun p => negb (excluded more p)) (binaryFiles r1).
Proof.
  intros H1 H2.
  destruct (findGlobs_resolved _ _ _ _ _ _ _ _ _ H1) as (root1 & Hr1 & ->).
  destruct (findGlobs_resolved _ _ _ _ _ _ _ _ _ H2) as (root2 & Hr2 & ->).
  rewrite Hr1 in Hr2. injection Hr2 as <- _.
  cbn [manifestFiles binaryFiles with_default]. rewrite !filter_twice.
  split; apply filter_ext; intro p; unfold is_manifest, is_binary;
    rewrite excluded_app;
    destruct (excluded exclusionGlobs p), (excluded more p),
      (checkMatch p (Some (manifestGlobs globs))),
      (checkMatch p (Some (binaryGlobs globs))); reflexivity.
Qed.

(** On the small image, excluding [/app/lib/**] as well removes the two
    files of [/app/lib] from the lists of the default scan. *)
Lemma findGlobs_more_exclusions_witness :
  ["/app/package.json"%string]
  = filter (fun p => negb (excluded (lib:=Demo.lib) ["/app/lib/**"%string] p))
           ["/app/package.json"; "/app/lib/package.json"]%string
  /\ ["/app/node"%string]
     = filter (fun p =>
                 negb (excluded (lib:=Demo.lib) ["/app/lib/**"%string] p))
              ["/app/node"; "/app/lib/libz.so"]%string.
Proof.
  apply (findGlobs_more_exclusions (sub:=Demo.sub) (lib:=Demo.lib)
           Demo.image Demo.globs [] ["/app/lib/**"%string] None None None
           []
           [ls_invocation Demo.image false "/";
            ls_invocation Demo.image true "/app"]
           [ls_invocation Demo.image false "/";
            ls_invocation Demo.image true "/app"]
           (mkResult ["/app/package.json"; "/app/lib/package.json"]%string
                     ["/app/node"; "/app/lib/libz.so"]%string)
           (mkResult ["/app/package.json"%string] ["/app/node"%string])).
  - vm_compute. reflexivity.
  - vm_compute. reflexivity.
Defined.

(** ** Reading a file *)

(** X12. [catSafe] tolerates less than [lsSafe]: a failure whose [stderr]
    holds "Permission denied" and neither "No such file" nor "file not
    found" is thrown again by [catSafe] and returned by [lsSafe]. *)
Theorem catSafe_rethrows_permission_denied
        {sub : SubProcess} (this : Docker)
        (filename path : string) (recursive : option bool)
        (error : JsError) (s : string) (log : list Invocation) :
  error_stderr error = JsString s ->
  contains s "Permission denied" ->
  ~ contains s "No such file" ->
  ~ contains s "file not found" ->
  (execute "docker" (docker_run_args this "cat" [filename])
   = Rejected error ->
   fst (catSafe this filename log) = Rejected error)
  /\ (execute "docker"
        (docker_run_args this "ls"
           [if with_default false recursive then "-1apR" else "-1ap";
            path]%string)
      = Rejected error ->
      fst (lsSafe this path recursive log)
      = Resolved (mkOutput (error_stdout error) (JsString s))).
Proof.
  intros Hs Hdenied Hmissing Hnotfound. split; intro Hfail.
  - unfold catSafe. rewrite runSafe_unfold. cbn [with_default fst].
    rewrite Hfail.
    destruct (tolerated _ error) eqn:Htol; [|reflexivity].
    apply tolerated_true in Htol as (s' & pat & Hs' & Hpat & Hin).
    rewrite Hs in Hs'. injection Hs' as <-.
    simpl in Hpat. destruct Hpat as [<-|[<-|[]]]; contradiction.
  - rewrite lsSafe_unfold, runSafe_unfold. cbn [with_default fst].
    rewrite Hfail.
    replace (tolerated _ error) with true; [now rewrite Hs|].
    symmetry. apply tolerated_true.
    exists s, "Permission denied"%string. simpl. tauto.
Qed.

(** Where nothing may be read, [cat /etc/shadow] rejects and the listing
    of [/etc] returns. *)
Lemma catSafe_rethrows_permission_denied_witness :
  fst (catSafe (sub:=Demo.denied_sub) Demo.image "/etc/shadow" [])
  = Rejected (mkError (JsString "")
                (JsString "sh: can't open '/etc/shadow': Permission denied")
                JsUndefined)
  /\ fst (lsSafe (sub:=Demo.denied_sub) Demo.image "/etc" None [])
     = Resolved
         (mkOutput (JsString "")
            (JsString "sh: can't open '/etc/shadow': Permission denied")).
Proof.
  destruct (catSafe_rethrows_permission_denied
              (sub:=Demo.denied_sub) Demo.image "/etc/shadow" "/etc" None
              (mkError (JsString "")
                 (JsString "sh: can't open '/etc/shadow': Permission denied")
                 JsUndefined)
              "sh: can't open '/etc/shadow': Permission denied" [])
    as [Hcat Hls].
  - reflexivity.
  - now exists "sh: can't open '/etc/shadow': "%string, ""%string.
  - intro H. apply indexOf_contains in H. vm_compute in H. discriminate.
  - intro H. apply indexOf_contains in H. vm_compute in H. discriminate.
  - split; [apply Hcat | apply Hls]; reflexivity.
Defined.

(** ** More on the streaming hasher *)

Section HashFilesMore.

Context {sub : SubProcess} {lib : Libraries}.

Variable this : Docker.

Lemma calcHash_file_unsupported ht file arr log :
  hashSupported ht = false ->
  exists e, calcHash_file this ht file arr log = (Rejected e, log).
Proof.
  intro Hsup. unfold calcHash_file, bind, lift, createHash. rewrite Hsup.
  eauto.
Qed.

Lemma calcHash_file_log ht file arr log :
  snd (calcHash_file this ht file arr log)
  = if hashSupported ht
    then log ++ [ExecuteAsStream "docker" (cat_args this file)]
    else log.
Proof.
  destruct (hashSupported ht) eqn:Hsup.
  - now rewrite calcHash_file_unfold.
  - destruct (calcHash_file_unsupported ht file arr log Hsup) as [e ->].
    reflexivity.
Qed.

Lemma calcHash_file_rejected ht file arr log e :
  hashSupported ht = true ->
  orderly (chunks_of this file) = true ->
  rejection_of this file = Some e ->
  calcHash_file this ht file arr log
  = (Rejected e, log ++ [ExecuteAsStream "docker" (cat_args this file)]).
Proof.
  intros Hsup Hord Hrej. rewrite calcHash_file_unfold by exact Hsup.
  rewrite Hrej.
  destruct (orderly_cases _ Hord)
    as [(_ & pre & last & -> & Hpre & Hlast)|[_ Hno]].
  - now rewrite feed_terminated.
  - now rewrite feed_open.
Qed.

Lemma for_of_acc_app {A S} (body : A -> S -> M S) (xs ys : list A) :
  forall s log,
    for_of_acc body (xs ++ ys) s log
    = bind (for_of_acc body xs s) (for_of_acc body ys) log.
Proof.
  induction xs as [|x xs IH]; intros s log; cbn [app for_of_acc].
  - reflexivity.
  - unfold bind. destruct (body x s log) as [[s'|e] l]; [|reflexivity].
    rewrite IH. reflexivity.
Qed.

(** One chunk pushes nothing or one record of the file. *)
Lemma calcHash_chunk_pushes file ht sd h arr h' arr' :
  calcHash_chunk file ht sd (h, arr) = Resolved (h', arr') ->
  arr' = arr
  \/ exists hex,
      arr' = arr ++ [mkBinaryFileData (path_basename file)
                       (path_dirname file) ht hex].
Proof.
  unfold calcHash_chunk, hash_update, hash_digest.
  destruct (data sd) as [d|], (truthy_string (err sd)),
    (hash_finalized h) eqn:Hfin; cbn [negb and_then hash_finalized];
    try discriminate;
    destruct (exitCode sd) as [[|c|c]|]; cbn [and_then hash_finalized];
    rewrite ?Hfin; try discriminate;
    intro H; injection H as _ <-; eauto.
Qed.

Lemma feed_hashType file ht cs :
  forall h arr st,
    feed (calcHash_chunk file ht) cs (h, arr) = Resolved st ->
    Forall (fun r => bf_hashType r = ht) arr ->
    Forall (fun r => bf_hashType r = ht) (snd st).
Proof.
  induction cs as [|sd cs IH]; intros h arr st H Harr; cbn [feed] in H.
  - injection H as <-. exact Harr.
  - destruct (calcHash_chunk file ht sd (h, arr)) as [[h1 arr1]|e] eqn:Hsd;
      [|discriminate].
    cbn [and_then] in H. apply (IH h1 arr1 st H).
    apply calcHash_chunk_pushes in Hsd as [->|[hex ->]]; [exact Harr|].
    apply Forall_app. split; [exact Harr|]. now constructor.
Qed.

Lemma calcHash_file_hashType ht file arr log arr' log' :
  calcHash_file this ht file arr log = (Resolved arr', log') ->
  Forall (fun r => bf_hashType r = ht) arr ->
  Forall (fun r => bf_hashType r = ht) arr'.
Proof.
  destruct (hashSupported ht) eqn:Hsup.
  - rewrite calcHash_file_unfold by exact Hsup.
    destruct (feed _ _ _) as [st|e] eqn:Hfeed; [|discriminate].
    destruct (rejection_of this file); [discriminate|].
    intros H Harr. injection H as <- _.
    now apply feed_hashType in Hfeed.
  - destruct (calcHash_file_unsupported ht file arr log Hsup) as [e ->].
    discriminate.
Qed.

Lemma calcHash_loop_hashType ht files :
  forall arr log recs log',
    for_of_acc (calcHash_file this ht) files arr log = (Resolved recs, log')
    -> Forall (fun r => bf_hashType r = ht) arr
    -> Forall (fun r => bf_hashType r = ht) recs.
Proof.
  induction files as [|f files IH]; intros arr log recs log' H Harr;
    cbn [for_of_acc] in H.
  - now injection H as <- _.
  - unfold bind in H.
    destruct (calcHash_file this ht f arr log) as [[arr1|e] l1] eqn:Hf;
      [|discriminate].
    apply (IH arr1 l1 recs log' H).
    now apply calcHash_file_hashType in Hf.
Qed.

Lemma calcHash_loop_log ht files :
  forall arr log,
    exists k,
      (k <= List.length files)%nat
      /\ snd (for_of_acc (calcHash_file this ht) files arr log)
         = log ++ map (fun f => ExecuteAsStream "docker" (cat_args this f))
                      (firstn k files)
      /\ forall recs,
          fst (for_of_acc (calcHash_file this ht) files arr log)
          = Resolved recs ->
          k = List.length files.
Proof.
  induction files as [|f files IH]; intros arr log; cbn [for_of_acc].
  - exists 0%nat. cbn. rewrite app_nil_r. auto.
  - unfold bind. pose proof (calcHash_file_log ht f arr log) as Hlog.
    destruct (calcHash_file this ht f arr log) as [[arr1|e] l1] eqn:Hf;
      cbn [snd] in Hlog.
    + destruct (hashSupported ht) eqn:Hsup.
      * subst l1.
        destruct (IH arr1 (log ++ [ExecuteAsStream "docker"
                                     (cat_args this f)]))
          as (k & Hk & Hsnd & Hres).
        exists (S k). cbn [List.length firstn map]. split; [lia|].
        split.
        -- rewrite Hsnd, <- app_assoc. reflexivity.
        -- intros recs Hrecs. f_equal. eauto.
      * destruct (calcHash_file_unsupported ht f arr log Hsup) as [e He].
        congruence.
    + destruct (hashSupported ht).
      * exists 1%nat. cbn [List.length firstn map snd fst].
        split; [lia|]. split; [now subst l1 | discriminate].
      * exists 0%nat. cbn [List.length firstn map snd fst].
        split; [lia|]. split; [subst l1; now rewrite app_nil_r
                              | discriminate].
Qed.

End HashFilesMore.

(** X13. Without files, [calcHashOfBinaryFiles] resolves with no record
    and runs nothing, whatever the options; with a file and a hash type
    that [crypto.createHash] does not know, it rejects before it runs
    anything. *)
Theorem calcHash_no_file_or_unknown_hash
        {sub : SubProcess} {lib : Libraries} (this : Docker)
        (options : option HashOptions) (log : list Invocation) :
  calcHashOfBinaryFiles this [] options log = (Resolved [], log)
  /\ (hashSupported (hashType_of options) = false ->
      forall file files,
      exists e,
        calcHashOfBinaryFiles this (file :: files) options log
        = (Rejected e, log)).
Proof.
  split; [reflexivity|].
  intros Hsup file files. unfold calcHashOfBinaryFiles.
  rewrite hashType_of_options. cbn [for_of_acc]. unfold bind.
  destruct (calcHash_file_unsupported this (hashType_of options) file [] log
                                      Hsup) as [e ->].
  eauto.
Qed.

(** On the small image, [md4] is not a known hash type. *)
Lemma calcHash_no_file_or_unknown_hash_witness :
  exists e,
    calcHashOfBinaryFiles (sub:=Demo.sub) (lib:=Demo.lib) Demo.image
      ["/app/node"%string] (Some (mkHashOptions (Some "md4"%string))) []
    = (Rejected e, []).
Proof.
  destruct (calcHash_no_file_or_unknown_hash
              (sub:=Demo.sub) (lib:=Demo.lib) Demo.image
              (Some (mkHashOptions (Some "md4"%string))) [])
    as [_ Hunknown].
  apply (Hunknown eq_refl "/app/node"%string []).
Defined.

(** X14. [calcHashOfBinaryFiles] stops at the first file whose stream
    promise rejects: it rejects with that error, the records of the files
    before it are not returned, and the files after it are not read. *)
Theorem calcHash_stops_at_rejected_stream
        {sub : SubProcess} {lib : Libraries} (this : Docker)
        (before after : list string) (file : string)
        (options : option HashOptions) (log : list Invocation)
        (e : JsError) :
  hashSupported (hashType_of options) = true ->
  (forall f, In f before ->
             orderly (chunks_of this f) = true
             /\ rejection_of this f = None) ->
  orderly (chunks_of this file) = true ->
  rejection_of this file = Some e ->
  calcHashOfBinaryFiles this (before ++ file :: after) options log
  = (Rejected e,
     log ++ map (fun f => ExecuteAsStream "docker" (cat_args this f))
                (before ++ [file])).
Proof.
  intros Hsup Hbefore Hord Hrej. unfold calcHashOfBinaryFiles.
  rewrite hashType_of_options, for_of_acc_app. unfold bind at 1.
  rewrite calcHash_loop_orderly by assumption.
  cbn [for_of_acc]. unfold bind.
  rewrite (calcHash_file_rejected this _ _ _ _ e) by assumption.
  now rewrite map_app, <- app_assoc.
Qed.

(** Behind a layer that rejects on a failed command, [/app/gone] ends the
    run: the record of [/app/node] is lost and [/app/flaky] is not
    read. *)
Lemma calcHash_stops_at_rejected_stream_witness :
  calcHashOfBinaryFiles (sub:=Demo.strict_sub) (lib:=Demo.lib) Demo.image
    (["/app/node"] ++ "/app/gone" :: ["/app/flaky"]) None []
  = (Rejected (mkError JsUndefined JsUndefined (JsString "command failed")),
     [] ++ map (fun f => ExecuteAsStream "docker" (cat_args Demo.image f))
               (["/app/node"] ++ ["/app/gone"])).
Proof.
  apply (calcHash_stops_at_rejected_stream
           (sub:=Demo.strict_sub) (lib:=Demo.lib) Demo.image
           ["/app/node"%string] ["/app/flaky"%string] "/app/gone"%string
           None []).
  - reflexivity.
  - intros f [<-|[]]. split; vm_compute; reflexivity.
  - vm_compute. reflexivity.
  - vm_compute. reflexivity.
Defined.

(** X15. Every record that [calcHashOfBinaryFiles] returns carries the
    one hash type of the call: [options.hashType] when it is set and not
    empty, [HASH_ALGORITHM_SHA1] otherwise. *)
Theorem calcHash_records_hashType
        {sub : SubProcess} {lib : Libraries} (this : Docker)
        (files : list string) (options : option HashOptions)
        (log log' : list Invocation) (recs : list BinaryFileData) :
  calcHashOfBinaryFiles this files options log = (Resolved recs, log') ->
  forall r,
    In r recs ->
    bf_hashType r
    = match options with
      | Some (mkHashOptions (Some ht)) =>
          if (ht =? "")%string then HASH_ALGORITHM_SHA1 else ht
      | _ => HASH_ALGORITHM_SHA1
      end.
Proof.
  unfold calcHashOfBinaryFiles. rewrite hashType_of_options. intro H.
  apply calcHash_loop_hashType in H; [|constructor].
  rewrite Forall_forall in H. exact H.
Qed.

(** On the small image, an empty [hashType] falls back to [sha1]. *)
Lemma calcHash_records_hashType_witness :
  bf_hashType (mkBinaryFileData "node" "/app" "sha1" "sha1:abcd")
  = "sha1"%string.
Proof.
  apply (calcHash_records_hashType (sub:=Demo.sub) (lib:=Demo.lib)
           Demo.image ["/app/node"; "/app/gone"]%string
           (Some (mkHashOptions (Some ""%string))) []
           [ExecuteAsStream "docker" (cat_args Demo.image "/app/node");
            ExecuteAsStream "docker" (cat_args Demo.image "/app/gone")]
           [mkBinaryFileData "node" "/app" "sha1" "sha1:abcd"]).
  - vm_compute. reflexivity.
  - simpl. left. reflexivity.
Defined.

(** X16. [calcHashOfBinaryFiles] returns at most one record per file it
    was given. *)
Theorem calcHash_at_most_one_record_per_file
        {sub : SubProcess} {lib : Libraries} (this : Docker)
        (files : list string) (options : option HashOptions)
        (log log' : list Invocation) (recs : list BinaryFileData) :
  calcHashOfBinaryFiles this files options log = (Resolved recs, log') ->
  (List.length recs <= List.length files)%nat.
Proof.
  unfold calcHashOfBinaryFiles. intro H.
  apply calcHash_loop_resolved in H as (new & -> & Hkeys).
  apply (f_equal (@List.length _)) in Hkeys.
  rewrite !length_map in Hkeys. cbn [app]. rewrite Hkeys.
  apply filter_length_le.
Qed.

Lemma calcHash_at_most_one_record_per_file_witness :
  (List.length [mkBinaryFileData "node" "/app" "sha1" "sha1:abcd"]
   <= List.length ["/app/node"; "/app/gone"]%string)%nat.
Proof.
  apply (calcHash_at_most_one_record_per_file
           (sub:=Demo.sub) (lib:=Demo.lib) Demo.image
           ["/app/node"; "/app/gone"]%string None []
           [ExecuteAsStream "docker" (cat_args Demo.image "/app/node");
            ExecuteAsStream "docker" (cat_args Demo.image "/app/gone")]).
  vm_compute. reflexivity.
Defined.

(** X17. However it ends, [calcHashOfBinaryFiles] runs nothing but the
    [cat] streams of a leading part of its files, one per file and in
    their order; when it resolves, of all of them. *)
Theorem calcHash_commands
        {sub : SubProcess} {lib : Libraries} (this : Docker)
        (files : list string) (options : option HashOptions)
        (log : list Invocation) :
  exists k,
    (k <= List.length files)%nat
    /\ snd (calcHashOfBinaryFiles this files options log)
       = log
         ++ map (fun f =>
                   ExecuteAsStream "docker"
                     (optionsList this
                      ++ ["run"; "--rm"; "--entrypoint"; empty_entrypoint;
                          "--network"; "none"; targetImage this;
                          "cat"; f]))
                (firstn k files)
    /\ forall recs,
        fst (calcHashOfBinaryFiles this files options log) = Resolved recs ->
        k = List.length files.
Proof.
  unfold calcHashOfBinaryFiles.
  exact (calcHash_loop_log this _ files [] log).
Qed.

(** ** The RPM database *)

(** X18. [getRpmDbFileContent] never rejects. It resolves with a
    non-empty string only when the database was extracted and the parser
    resolved, without an error, with that string; whenever something was
    handed to [debug] it resolves with the empty string, and without a
    database it resolves with the empty string and logs nothing. *)
Theorem getRpmDbFileContent_never_rejects
        {rpm : RpmImports} (extractedLayers : ExtractedLayers) :
  exists content,
    fst (getRpmDbFileContent extractedLayers) = Resolved content
    /\ (content <> ""%string ->
        exists rpmDb,
          getContentAsBuffer extractedLayers getRpmDbFileContentAction
          = Some rpmDb
          /\ getPackages rpmDb = Resolved (mkParserResponse content None))
    /\ (snd (getRpmDbFileContent extractedLayers) <> [] ->
        content = ""%string)
    /\ (getContentAsBuffer extractedLayers getRpmDbFileContentAction = None ->
        getRpmDbFileContent extractedLayers = (Resolved ""%string, [])).
Proof.
  unfold getRpmDbFileContent.
  destruct (getContentAsBuffer extractedLayers getRpmDbFileContentAction)
    as [rpmDb|].
  - destruct (getPackages rpmDb) as [[content [error|]]|e] eqn:Hparse;
      cbn [and_then response response_error fst snd].
    + exists ""%string. split; [reflexivity|].
      split; [|split; [reflexivity | discriminate]].
      intro H. now destruct H.
    + exists content. split; [reflexivity|].
      split; [|split; [|discriminate]].
      * intros _. exists rpmDb. auto.
      * intro H. now destruct H.
    + exists ""%string. split; [reflexivity|].
      split; [|split; [reflexivity | discriminate]].
      intro H. now destruct H.
  - exists ""%string. split; [reflexivity|].
    split; [|split; reflexivity].
    intro H. now destruct H.
Qed.

(** ** A listing that fails tolerably *)

(** X19. A scan away from the root whose listing fails with a [stderr]
    that holds one of the patterns of [lsSafe] does not fail: [findGlobs]
    parses the [stdout] that came with the failure and resolves with the
    classification of that partial tree. *)
Theorem findGlobs_tolerated_failure_partial
        {sub : SubProcess} {lib : Libraries} (this : Docker)
        (globs : Globs) (exclusionGlobs : option (list string))
        (path : option string) (recursive : option bool)
        (excludeRootDirectories : option (list string))
        (log : list Invocation)
        (error : JsError) (s pat : string) (tree : DiscoveredDirectory) :
  with_default true recursive && (with_default "/" path =? "/")%string
  = false ->
  execute "docker"
    (docker_run_args this "ls"
       [if with_default true recursive then "-1apR" else "-1ap";
        with_default "/" path]%string)
  = Rejected error ->
  error_stderr error = JsString s ->
  In pat ["No such file"; "file not found"; "Permission denied"]%string ->
  contains s pat ->
  parseLsOutput (error_stdout error) = Resolved tree ->
  fst (findGlobs this globs exclusionGlobs path recursive
                 excludeRootDirectories log)
  = Resolved
      (mkResult
         (filter (is_manifest globs (with_default [] exclusionGlobs))
                 (map fullPath (allFiles tree)))
         (filter (is_binary globs (with_default [] exclusionGlobs))
                 (map fullPath (allFiles tree)))).
Proof.
  intros Hscope Hfail Hs Hpat Hin Hparse.
  unfold findGlobs, findGlobs_root. rewrite Hscope.
  unfold bind, lift, ret. rewrite lsSafe_unfold, runSafe_unfold.
  cbn [with_default]. rewrite Hfail.
  replace (tolerated _ error) with true
    by (symmetry; apply tolerated_true; eauto).
  cbn [stdout]. rewrite Hparse. cbn [fst]. f_equal. apply classify_tree.
Qed.

(** On the small image, the listing of [/proc/1/fd] is denied and the
    scan of that path resolves with nothing found. *)
Lemma findGlobs_tolerated_failure_partial_witness :
  fst (findGlobs (sub:=Demo.sub) (lib:=Demo.lib) Demo.image Demo.globs
         None (Some "/proc/1/fd"%string) (Some false) None [])
  = Resolved (mkResult [] []).
Proof.
  apply (findGlobs_tolerated_failure_partial
           (sub:=Demo.sub) (lib:=Demo.lib) Demo.image Demo.globs
           None (Some "/proc/1/fd"%string) (Some false) None []
           (mkError (JsString "")
                    (JsString "ls: /proc/1/fd: Permission denied")
                    JsUndefined)
           "ls: /proc/1/fd: Permission denied" "Permission denied"
           (mkDirectory "/" [] [])).
  - reflexivity.
  - vm_compute. reflexivity.
  - reflexivity.
  - simpl. tauto.
  - now exists "ls: /proc/1/fd: "%string, ""%string.
  - reflexivity.
Defined.
